(** * kip: Keep Internet Passwords

    A shallow embedding of [kip.py] (a Python 2 script) and the properties
    its specification states about it.

    Python [str] values are byte strings: they are [string] here.  The
    state the script reads and changes (the files it sees, standard
    input, the OS entropy source, the clipboard, standard output) is the
    record [World]; what stays fixed while it runs (its home directory,
    [glob], the programs it starts) is the class [Host].  Every function
    of the script is a computation in the monad [Py], which threads the
    world and a raised exception. *)

From Stdlib Require Import Ascii String ZArith Lia.
From stdpp Require Import base strings list gmap.

Local Open Scope string_scope.
Local Open Scope Z_scope.

(** ** The Python builtins the script calls *)

Module Builtins.

(** ['\n'] and the ESC byte of ['\033'] *)
Definition LF : ascii := "010"%char.
Definition ESC : ascii := "027"%char.
Definition nl : string := String LF "".

(** [s.split(sep)] for a separator of one character: the result is never
    empty, and has one more element than [s] has occurrences of [sep]. *)
Fixpoint split (sep : ascii) (s : string) : list string :=
  match s with
  | "" => [""]
  | String c s' =>
      if Ascii.eqb c sep then "" :: split sep s'
      else match split sep s' with
           | [] => [String c ""]
           | p :: ps => String c p :: ps
           end
  end.

(** [sep.join(l)] *)
Fixpoint join (sep : string) (l : list string) : string :=
  match l with
  | [] => ""
  | [x] => x
  | x :: (_ :: _) as l' => x +:+ sep +:+ join sep l'
  end.

(** [c in s] for a character [c] *)
Fixpoint contains (c : ascii) (s : string) : bool :=
  match s with
  | "" => false
  | String a s' => Ascii.eqb a c || contains c s'
  end.

(** [c.isspace()] in the C locale: TAB, LF, VT, FF, CR and the space. *)
Definition isspace (c : ascii) : bool :=
  let n := nat_of_ascii c in
  ((9 <=? n)%nat && (n <=? 13)%nat) || (n =? 32)%nat.

Fixpoint lstrip (s : string) : string :=
  match s with
  | "" => ""
  | String c s' => if isspace c then lstrip s' else s
  end.

Fixpoint rstrip (s : string) : string :=
  match s with
  | "" => ""
  | String c s' =>
      match rstrip s' with
      | "" => if isspace c then "" else String c ""
      | r => String c r
      end
  end.

(** [s.strip()] *)
Definition strip (s : string) : string := rstrip (lstrip s).

(** [os.path.basename(p)]: what follows the last ['/'] of [p]. *)
Fixpoint basename (p : string) : string :=
  match p with
  | "" => ""
  | String c p' =>
      if contains "/"%char p' then basename p'
      else if Ascii.eqb c "/"%char then p' else p
  end.

(** [l[i]], with Python's negative indices; [None] is [IndexError]. *)
Definition getitem {A} (l : list A) (i : Z) : option A :=
  let n := Z.of_nat (length l) in
  let j := if i <? 0 then i + n else i in
  if (j <? 0) || (n <=? j) then None else l !! Z.to_nat j.

(** [s[lo:hi]] for [0 <= lo <= hi] *)
Definition slice (lo hi : nat) (s : string) : string :=
  substring lo (hi - lo) s.

(** [string.letters] (in the C locale, which the script never leaves)
    and [string.digits] *)
Definition letters : string :=
  "abcdefghijklmnopqrstuvwxyzABCDEFGHIJKLMNOPQRSTUVWXYZ".
Definition digits : string := "0123456789".

End Builtins.
Import Builtins.

(** ** Exceptions, the world and the monad of the script *)

(** The exception classes that can be raised while the script runs.  In
    Python 2 [IOError] and [OSError] are different classes: an
    [except IOError] clause lets an [OSError] through, and conversely. *)
Inductive exn : Type :=
| IndexError
| IOError
| OSError (msg : string)
| TypeError
| OverflowError
| MemoryError
| NotImplementedError.

Inductive outcome (A : Type) : Type :=
| Return (a : A)
| Raise (e : exn).
Arguments Return {A} a.
Arguments Raise {A} e.

(** What a path names: a regular file with its contents, or a directory. *)
Inductive node : Type :=
| File (contents : string)
| Dir.

(** The part of the machine the script reads and changes.
    - [fs]: the tree of files.  A key is a place in the tree, the names
      from the root down; the root, the empty list, is a directory and
      has no entry.  Symbolic and hard links, and permissions that refuse
      access, are not part of the model;
    - [cwd]: the working directory, where relative paths start;
    - [stdin]: [None] when standard input is a terminal, else what is
      still to be read from it;
    - [urandom], [drawn]: the draws of the OS entropy source, each a
      number or the exception raised when the source cannot be read, and
      how many draws [random.SystemRandom] has used;
    - [clipboard]: what [xclip] was last given;
    - [stdout]: the lines printed so far, oldest first. *)
Record World : Type := mkWorld {
  fs : gmap (list string) node;
  cwd : list string;
  stdin : option string;
  urandom : nat -> outcome nat;
  drawn : nat;
  clipboard : option string;
  stdout : list string
}.

Definition set_fs (f : gmap (list string) node) (w : World) : World :=
  mkWorld f (cwd w) (stdin w) (urandom w) (drawn w) (clipboard w) (stdout w).
Definition set_stdin (i : option string) (w : World) : World :=
  mkWorld (fs w) (cwd w) i (urandom w) (drawn w) (clipboard w) (stdout w).
Definition set_drawn (n : nat) (w : World) : World :=
  mkWorld (fs w) (cwd w) (stdin w) (urandom w) n (clipboard w) (stdout w).
Definition set_clipboard (c : option string) (w : World) : World :=
  mkWorld (fs w) (cwd w) (stdin w) (urandom w) (drawn w) c (stdout w).
Definition set_stdout (o : list string) (w : World) : World :=
  mkWorld (fs w) (cwd w) (stdin w) (urandom w) (drawn w) (clipboard w) o.

(** *** How the system follows a path *)

(** [q] is a directory: the root, or an entry that is one. *)
Definition is_dir (files : gmap (list string) node) (q : list string)
  : bool :=
  match q with
  | [] => true
  | _ => match files !! q with Some Dir => true | _ => false end
  end.

(** One component of a path, from the directory [cur]: an empty component
    (a doubled or trailing slash) and [.] stay, [..] goes up, and the root
    is its own parent; a name goes down. *)
Definition step (cur : list string) (c : string) : list string :=
  if String.eqb c "" || String.eqb c "." then cur
  else if String.eqb c ".." then removelast cur
  else (cur ++ [c])%list.

(** The components one after the other: each is looked up in a place
    that must be a directory.  The place reached need not exist. *)
Fixpoint walk (files : gmap (list string) node) (cur : list string)
    (comps : list string) : option (list string) :=
  match comps with
  | [] => Some cur
  | c :: rest =>
      if is_dir files cur then walk files (step cur c) rest else None
  end.

(** The place a path string names: from the root when it starts with a
    slash, else from the working directory.  [None]: the empty path, or a
    path through something that is no directory. *)
Definition place (w : World) (p : string) : option (list string) :=
  match p with
  | "" => None
  | String c _ =>
      walk (fs w) (if Ascii.eqb c "/"%char then [] else cwd w)
        (split "/"%char p)
  end.

(** What a path names, as [os.stat] finds it. *)
Definition stat (w : World) (p : string) : option node :=
  match place w p with
  | None => None
  | Some [] => Some Dir
  | Some q => fs w !! q
  end.

(** Where [open(p, 'wt')] writes: the place [p] names, when it is not a
    directory and the directory it goes in is there.  [None] when the
    call raises [IOError]. *)
Definition wt_target (w : World) (p : string) : option (list string) :=
  match place w p with
  | None | Some [] => None
  | Some q =>
      if is_dir (fs w) (removelast q) then
        match fs w !! q with
        | Some Dir => None
        | _ => Some q
        end
      else None
  end.

(** [p] without its trailing slashes *)
Fixpoint rstrip_slash (p : string) : string :=
  match p with
  | "" => ""
  | String c p' =>
      match rstrip_slash p' with
      | "" => if Ascii.eqb c "/"%char then "" else String c ""
      | r => String c r
      end
  end.

(** Where [os.mkdir(p)] makes a directory: the place [p] names, trailing
    slashes apart, when nothing is there and the directory it goes in
    is.  [None] when the call raises [OSError]. *)
Definition mkdir_target (w : World) (p : string) : option (list string) :=
  match place w (rstrip_slash p) with
  | None | Some [] => None
  | Some q =>
      if is_dir (fs w) (removelast q) then
        match fs w !! q with
        | Some _ => None
        | None => Some q
        end
      else None
  end.

(** A computation of the script: it ends with a value or with a raised
    exception, in a changed world. *)
Definition Py (A : Type) : Type := World -> outcome A * World.

#[global] Instance Py_ret : MRet Py := fun A a w => (Return a, w).
#[global] Instance Py_bind : MBind Py := fun A B f m w =>
  match m w with
  | (Return a, w') => f a w'
  | (Raise e, w') => (Raise e, w')
  end.

Definition raise {A} (e : exn) : Py A := fun w => (Raise e, w).

(** [try: body / except <class>: handler] *)
Definition try_except {A} (body : Py A) (caught : exn -> bool)
    (handler : exn -> Py A) : Py A := fun w =>
  match body w with
  | (Raise e, w') => if caught e then handler e w' else (Raise e, w')
  | r => r
  end.

Definition is_IOError (e : exn) : bool :=
  match e with IOError => true | _ => false end.
Definition is_OSError (e : exn) : bool :=
  match e with OSError _ => true | _ => false end.

(** [for x in l: body x] *)
Fixpoint for_each {A} (l : list A) (body : A -> Py unit) : Py unit :=
  match l with
  | [] => mret tt
  | x :: l' => body x ;; for_each l' body
  end.

(** [[body x for x in l]] *)
Fixpoint collect {A B} (l : list A) (body : A -> Py B) : Py (list B) :=
  match l with
  | [] => mret []
  | x :: l' => y ← body x; ys ← collect l' body; mret (y :: ys)
  end.

(** [print(s)] *)
Definition print (s : string) : Py unit := fun w =>
  (Return tt, set_stdout (stdout w ++ [s]) w).

(** [l[i]] as a statement: [IndexError] out of range *)
Definition index {A} (l : list A) (i : Z) : Py A :=
  match getitem l i with
  | Some x => mret x
  | None => raise IndexError
  end.

(** [len(l)] *)
Definition len {A} (l : list A) : Z := Z.of_nat (length l).

(** [os.path.exists(p)] *)
Definition os_path_exists (p : string) : Py bool := fun w =>
  (Return (bool_decide (is_Some (stat w p))), w).

(** [os.mkdir(p)]: [OSError] when [p] is there already, or cannot be
    made. *)
Definition os_mkdir (p : string) : Py unit := fun w =>
  match mkdir_target w p with
  | Some q => (Return tt, set_fs (<[q := Dir]> (fs w)) w)
  | None =>
      (Raise (OSError (if bool_decide (is_Some (stat w p))
                       then "[Errno 17] File exists"
                       else "[Errno 2] No such file or directory")), w)
  end.

(** [open(p, 'rt')] followed by [.read()]: the file object is what it
    will read; [IOError] when [p] names no regular file. *)
Definition open_rt (p : string) : Py string := fun w =>
  match stat w p with
  | Some (File c) => (Return c, w)
  | _ => (Raise IOError, w)
  end.

(** [f = open(p, 'wt'); f.write(data); f.close()]: creates the file or
    replaces its contents; [IOError] when [p] names a directory, or when
    the directory the file would go in is not there. *)
Definition write_wt (p data : string) : Py unit := fun w =>
  match wt_target w p with
  | Some q => (Return tt, set_fs (<[q := File data]> (fs w)) w)
  | None => (Raise IOError, w)
  end.

(** [sys.stdin.isatty()] and [sys.stdin.read()] *)
Definition sys_stdin_isatty : Py bool := fun w =>
  (Return (match stdin w with None => true | Some _ => false end), w).
Definition sys_stdin_read : Py string := fun w =>
  match stdin w with
  | Some s => (Return s, set_stdin (Some "") w)
  | None => (Return "", w)
  end.

(** [proc.stdin.write(msg); proc.communicate()] on a running [xclip]:
    the clipboard holds [msg]. *)
Definition xclip_write (msg : string) : Py unit := fun w =>
  (Return tt, set_clipboard (Some msg) w).

(** [random.SystemRandom().choice(seq)]: one draw of the entropy source
    picks the position; the result is a string of one character.  The
    exception of a draw that fails goes through. *)
Definition choice (seq : string) : Py string := fun w =>
  match urandom w (drawn w) with
  | Raise e => (Raise e, w)
  | Return d =>
      let n := String.length seq in
      let w' := set_drawn (S (drawn w)) w in
      if (n =? 0)%nat then (Raise IndexError, w')
      else (Return (substring (d mod n) 1 seq), w')
  end.

(** ** The script *)

(** The process environment, fixed while the script runs:
    - [NAME] is [sys.argv[0]] and [HOME] is
      [os.path.expanduser('~/.kip/')];
    - [glob_glob files cwd pattern] is [glob.glob(pattern)] on the files
      [files], with working directory [cwd];
    - [spawn_error cmd] is [Some e] when [subprocess.Popen(cmd.split())]
      raises [OSError(e)], the program not being there to run;
    - [gpg cmd input] is what the gpg started by [cmd] writes to its
      standard output when it reads [input];
    - [range_error n] is [Some e] when [range(n)], for [n] positive,
      raises [e] for want of room for its list: [OverflowError] past
      [sys.maxint], [MemoryError] before. *)
Class Host : Type := mkHost {
  NAME : string;
  HOME : string;
  sys_argv : list string;
  glob_glob : gmap (list string) node -> list string -> string
              -> list string;
  spawn_error : string -> option string;
  gpg : string -> string -> string;
  range_error : Z -> option exn
}.

Section Kip.

Context {host : Host}.

Definition dquote : string := String "034"%char "".

Definition USAGE : string := join nl [
  "";
  NAME +:+ " manages accounts details in gpg files.";
  "";
  "Usage:";
  "";
  " $ " +:+ NAME +:+ " ebay.com";
  " Decrypts " +:+ HOME +:+ "ebay.com using gpg";
  " Copies password (first line) to clipboard";
  " Echoes ebay username and notes (other lines)";
  "";
  " $ " +:+ NAME +:+ " ebay.com graham_king " +:+ dquote
    +:+ "And some notes" +:+ dquote;
  " Generate random password (pwgen -s1 19)";
  " Creates file " +:+ HOME +:+ "ebay.com with format:";
  "    pw";
  "    username";
  "    notes";
  " Encrypts and signs it with gpg.";
  "";
  " $ echo " +:+ dquote +:+ "S3cret" +:+ dquote +:+ " | " +:+ NAME
    +:+ " ebay.com graham_king " +:+ dquote +:+ "Notes" +:+ dquote;
  " $ pwgen -s1 19 | " +:+ NAME +:+ " ebay.com graham_king " +:+ dquote
    +:+ "Notes" +:+ dquote;
  " If there is a pipe input, use that as the password, instead";
  " of randomly generating.";
  "";
  " If the LAST argument is --print output pw to stdout instead of";
  " using xclip. This is useful if you're on a headless machine, but";
  " check over your shoulder first!";
  "";
  "" ].

Definition PW_LEN : Z := 19.

(** [TEMPLATE.format(password=.., username=.., notes=..)] *)
Definition TEMPLATE_format (password username notes : string) : string :=
  password +:+ nl +:+ username +:+ nl +:+ notes.

Definition ENCRYPT_CMD : string :=
  "gpg --quiet --encrypt --sign --default-recipient-self --armor".
Definition DECRYPT_CMD : string := "gpg --quiet --decrypt".
Definition CLIP_CMD : string := "xclip".

(** [glob.glob(pattern)] *)
Definition glob (pattern : string) : Py (list string) := fun w =>
  (Return (glob_glob (fs w) (cwd w) pattern), w).

(** [range(n)] *)
Definition range (n : Z) : Py (list Z) :=
  if n <=? 0 then mret []
  else match range_error n with
       | Some e => raise e
       | None => mret (Z.of_nat <$> seq 0 (Z.to_nat n))
       end.

(** [subprocess.Popen(cmd.split(), ...)] *)
Definition Popen (cmd : string) : Py unit :=
  match spawn_error cmd with
  | Some e => raise (OSError e)
  | None => mret tt
  end.

(** ['msg' wrapped in ANSI escape sequence to make it bold] *)
Definition bold (msg : string) : string :=
  String ESC "[1m" +:+ msg +:+ String ESC "[0m".

(** [A random password of given length] *)
Definition pwgen (length : Z) : Py string :=
  let alphabet := slice 0 52 letters +:+ digits in
  indices ← range length;
  chars ← collect indices (fun _ => choice alphabet);
  mret (join "" chars).

(** [Execute 'cmd' on 'stdin' returning 'stdout'] *)
Definition execute (cmd stdin : string) : Py string :=
  Popen cmd ;;
  mret (gpg cmd stdin).

Definition encrypt (contents : string) : Py string :=
  execute ENCRYPT_CMD contents.

Definition decrypt (contents : string) : Py string :=
  execute DECRYPT_CMD contents.

(** [Copy given message to clipboard] *)
Definition copy_to_clipboard (msg : string) : Py unit :=
  try_except
    (Popen CLIP_CMD ;;
     xclip_write msg)
    is_OSError
    (fun e =>
       let e := match e with OSError m => m | _ => "" end in
       print (CLIP_CMD +:+ " -- " +:+ e) ;;
       print "XLIP is propably not installed").

(** [Guess filename from part of name] *)
Definition guess (name : string) : Py string :=
  globs ← glob (HOME +:+ "*" +:+ name +:+ "*");
  if len globs =? 1 then
    res ← index globs 0;
    mret res
  else
    print "Did you mean:" ;;
    for_each globs (fun option =>
      print (" - " +:+ basename option)) ;;
    raise IOError.

(** The [try] block of [show] (the statements under [try:]).  It ends
    with the opened file or with an exception; the first component is
    the value the local variable [filename] has when the block is left,
    which the [except] clause prints. *)
Definition resolve (name : string)
  : World -> (string * outcome string) * World := fun w =>
  let filename := HOME +:+ name in
  match os_path_exists filename w with
  | (Return false, w0) =>
      match guess name w0 with
      | (Return g, w1) =>
          let filename := g in
          match print ("Guessing " +:+ bold (basename filename)) w1 with
          | (_, w2) =>
              let (enc_file, w3) := open_rt filename w2 in
              ((filename, enc_file), w3)
          end
      | (Raise e, w1) => ((filename, Raise e), w1)
      end
  | (_, w0) =>
      let (enc_file, w1) := open_rt filename w0 in
      ((filename, enc_file), w1)
  end.

(** [Display accounts details for name, and put password on clipboard] *)
Definition show (name : string) (is_visible : bool) : Py Z := fun w =>
  match resolve name w with
  | ((filename, Raise e), w1) =>
      if is_IOError e then
        (print ("File not found: " +:+ filename) ;;
         mret 1) w1
      else (Raise e, w1)
  | ((_, Return enc), w1) =>
      (contents ← decrypt enc;
       let parts := split LF contents in
       password ← index parts 0;
       username ← index parts 1;
       print (bold username) ;;
       (if is_visible then print password
        else copy_to_clipboard password) ;;
       (if 2 <? len parts then print (join nl (drop 2 parts))
        else mret tt) ;;
       mret 0) w1
  end.

(** [Create a new entry] *)
Definition create (name username notes : string) : Py Z :=
  tty ← sys_stdin_isatty;
  password ← (if negb tty then
                piped ← sys_stdin_read;
                mret (strip piped)
              else pwgen PW_LEN);
  let notes := if String.eqb notes "" then "" else notes in
  let file_contents := TEMPLATE_format password username notes in
  enc ← encrypt file_contents;
  write_wt (HOME +:+ name) enc ;;
  show name false.

(** [Start here] *)
Definition main (argv : option (list string)) : Py Z :=
  let argv := match argv with
              | None | Some [] => sys_argv
              | Some a => a
              end in
  if len argv =? 1 then
    print USAGE ;;
    mret 1
  else
    try_except (os_mkdir HOME) is_OSError (fun _ => mret tt) ;;
    last ← index argv (len argv - 1);
    let is_visible := String.eqb last "--print" in
    if (len argv =? 2) || is_visible then
      name ← index argv 1;
      show name is_visible
    else
      (* create( *argv[1:]): two or three positional arguments *)
      match drop 1 argv with
      | [name; username] => create name username ""
      | [name; username; notes] => create name username notes
      | _ => raise TypeError
      end.

End Kip.

(** The three fields of an account: what [create] puts in a file and what
    [show] takes out of one. *)
Record Account : Type := mkAccount {
  password : string;
  username : string;
  notes : string
}.

(** The plaintext [create] hands to [encrypt]. *)
Definition serialize (r : Account) : string :=
  TEMPLATE_format (password r) (username r) (notes r).

(** ** A concrete machine, to run the script on *)

Module Demo.

Definition home : string := "/home/u/.kip/".

(** [fnmatch]-style matching with [*] as the only special character *)
Fixpoint wildcard (p : string) : string -> bool :=
  match p with
  | "" => fun s => match s with "" => true | _ => false end
  | String c p' =>
      if Ascii.eqb c "*"%char then
        fix star (s : string) : bool :=
          wildcard p' s ||
          match s with
          | "" => false
          | String _ s' => star s'
          end
      else fun s =>
        match s with
        | "" => false
        | String a s' => Ascii.eqb a c && wildcard p' s'
        end
  end.

(** The regular files whose path matches the pattern: a stand-in for
    [glob.glob], which the theorems leave open. *)
Definition glob_files (files : gmap (list string) node)
    (cwd : list string) (pattern : string) : list string :=
  List.filter (wildcard pattern)
    (omap (fun e => match e.2 with
                    | File _ => Some ("/" +:+ join "/" e.1)
                    | Dir => None
                    end)
       (map_to_list files)).

(** A stand-in for gpg: encryption puts a four-byte mark in front of
    the plaintext, decryption takes four bytes away. *)
Definition toy_gpg (cmd input : string) : string :=
  if String.eqb cmd ENCRYPT_CMD then "gpg:" +:+ input
  else substring 4 (String.length input - 4) input.

Definition all_installed (cmd : string) : option string := None.

Definition no_xclip (cmd : string) : option string :=
  if String.eqb cmd CLIP_CMD
  then Some "[Errno 2] No such file or directory"
  else None.

Definition no_limit (n : Z) : option exn := None.

(** The place of [home] in the tree. *)
Definition home_place : list string := ["home"; "u"; ".kip"].

(** A world with the given files in [home] (name, decrypted contents),
    standard input on a terminal or piped, nothing printed yet. *)
Definition world (entries : list (string * string))
    (piped : option string) : World :=
  mkWorld
    (list_to_map
       ([(["home"], Dir); (["home"; "u"], Dir); (home_place, Dir)]
        ++ List.map (fun e => ((home_place ++ [e.1])%list,
                               File (toy_gpg ENCRYPT_CMD e.2))) entries)%list)
    ["home"; "u"] piped (fun i => Return (7 * i + 3)%nat) O None [].

Definition machine : Host :=
  mkHost "kip" home ["kip"] glob_files all_installed toy_gpg no_limit.

(** The same machine without [xclip]. *)
Definition headless : Host :=
  mkHost "kip" home ["kip"] glob_files no_xclip toy_gpg no_limit.

(** The same machine without gpg. *)
Definition no_gpg (cmd : string) : option string :=
  if String.eqb cmd CLIP_CMD then None
  else Some "[Errno 2] No such file or directory".

Definition bare_machine : Host :=
  mkHost "kip" home ["kip"] glob_files no_gpg toy_gpg no_limit.

(** Two entries whose names share [ebay], one entry of a single line,
    one entry stored without notes. *)
Definition ebay : World :=
  world [("ebay.com", "S3cret" +:+ nl +:+ "alice" +:+ nl +:+ "my notes");
         ("ebay.co.uk", "hunter2" +:+ nl +:+ "bob")] None.

Definition broken : World := world [("broken", "S3cret")] None.

Definition bare : World :=
  world [("test.com", "S3cret" +:+ nl +:+ "alice" +:+ nl)] None.

(** A home directory where the script has not run yet. *)
Definition first_run (piped : option string) : World :=
  mkWorld (list_to_map [(["home"], Dir); (["home"; "u"], Dir)])
    ["home"; "u"] piped (fun i => Return (7 * i + 3)%nat) O None [].

(** An entry whose name is part of the name of another. *)
Definition nested : World :=
  world [("ebay", "hunter2" +:+ nl +:+ "bob");
         ("ebay.com", "S3cret" +:+ nl +:+ "alice" +:+ nl +:+ "my notes")]
    None.

(** No entry yet; standard input is a terminal, or a pipe. *)
Definition fresh : World := world [] None.
Definition piped (input : string) : World := world [] (Some input).

(** A record with notes of two lines. *)
Definition two_line_notes : Account :=
  mkAccount "S3cret" "alice" ("first" +:+ nl +:+ "second").

End Demo.

(** ** Vocabulary of the properties *)

(** Every character of [s] satisfies [P]. *)
Fixpoint all_chars (P : ascii -> bool) (s : string) : bool :=
  match s with
  | "" => true
  | String c s' => P c && all_chars P s'
  end.

Definition starts_space (s : string) : bool :=
  match s with
  | "" => false
  | String c _ => isspace c
  end.

Fixpoint ends_space (s : string) : bool :=
  match s with
  | "" => false
  | String c "" => isspace c
  | String _ s' => ends_space s'
  end.

(** How many times [c] occurs in [s]. *)
Fixpoint count (c : ascii) (s : string) : nat :=
  match s with
  | "" => O
  | String a s' => (if Ascii.eqb a c then 1 else 0) + count c s'
  end.

(** The fields [show] takes out of the decrypted contents: [parts[0]],
    [parts[1]], and ['\n'.join(parts[2:])], the text it prints when there
    are more than two parts. *)
Definition deserialize (contents : string) : outcome Account :=
  let parts := split LF contents in
  match getitem parts 0, getitem parts 1 with
  | Some password, Some username =>
      Return (mkAccount password username (join nl (drop 2 parts)))
  | _, _ => Raise IndexError
  end.

(** What [show] does with the fields, once it has them: [has_notes] is its
    test [len(parts) > 2]. *)
Definition emit {host : Host} (is_visible has_notes : bool) (r : Account)
  : Py Z :=
  print (bold (username r)) ;;
  (if is_visible then print (password r)
   else copy_to_clipboard (password r)) ;;
  (if has_notes then print (notes r) else mret tt) ;;
  mret 0.

(** [say lines w]: the world [w] after [lines] were printed. *)
Definition say (lines : list string) (w : World) : World :=
  set_stdout (stdout w ++ lines) w.

(** The candidates of a guess, and the lines [guess] prints for them. *)
Definition candidates {host : Host} (name : string) (w : World)
  : list string :=
  glob_glob (fs w) (cwd w) (HOME +:+ "*" +:+ name +:+ "*").

Definition options (globs : list string) : list string :=
  (fun option => " - " +:+ basename option) <$> globs.

(** The line of notes [show] prints, if it prints one. *)
Definition notes_line (has_notes : bool) (r : Account) : list string :=
  if has_notes then [notes r] else [].

(** The alphabet of [pwgen], and what its characters are. *)
Definition alphabet : string := slice 0 52 letters +:+ digits.

Definition is_letter_or_digit (c : ascii) : bool :=
  let n := nat_of_ascii c in
  ((48 <=? n)%nat && (n <=? 57)%nat)
  || ((65 <=? n)%nat && (n <=? 90)%nat)
  || ((97 <=? n)%nat && (n <=? 122)%nat).

(** No character occurs twice in [s]. *)
Fixpoint distinct (s : string) : bool :=
  match s with
  | "" => true
  | String c s' => negb (contains c s') && distinct s'
  end.

(** The first statement of [create]: where the password comes from. *)
Definition password_source {host : Host} : Py string :=
  tty ← sys_stdin_isatty;
  if negb tty then
    piped ← sys_stdin_read;
    mret (strip piped)
  else pwgen PW_LEN.

(** The world after [main] has tried [os.mkdir(HOME)]. *)
Definition mkdir_home {host : Host} (w : World) : World :=
  match mkdir_target w HOME with
  | Some q => set_fs (<[q := Dir]> (fs w)) w
  | None => w
  end.

(** The world after the encrypted form of [plaintext] was written at the
    place [q]. *)
Definition written {host : Host} (q : list string) (plaintext : string)
    (w : World) : World :=
  set_fs (<[q := File (gpg ENCRYPT_CMD plaintext)]> (fs w)) w.

(** The draws [from], [from + 1], ... [from + n - 1] of the entropy
    source all give a number. *)
Definition draws_available (w : World) (from n : nat) : Prop :=
  forall i, (i < n)%nat -> exists d, urandom w (from + i) = Return d.

(** The argument vector [main] works on: its argument, or [sys.argv] when
    the argument is [None] or empty. *)
Definition argv_of {host : Host} (argv : option (list string))
  : list string :=
  match argv with
  | None | Some [] => sys_argv
  | Some a => a
  end.

(** [w'] differs from [w] at most by what was printed and by the
    clipboard: same files, same standard input, same entropy left. *)
Definition quiet (w w' : World) : Prop :=
  fs w' = fs w /\ cwd w' = cwd w /\ stdin w' = stdin w
  /\ urandom w' = urandom w /\ drawn w' = drawn w.

(** [w'] has the clipboard of [w]. *)
Definition same_clipboard (w w' : World) : Prop := clipboard w' = clipboard w.

(** The computation [m] keeps every world in relation [R] with the world
    it leaves. *)
Definition keeps {A} (R : World -> World -> Prop) (m : Py A) : Prop :=
  forall w, R w (m w).2.

(** ** Facts about the builtins *)

Example split_3 : split LF ("pw" +:+ nl +:+ "me" +:+ nl) = ["pw"; "me"; ""].
Proof. reflexivity. Qed.
Example strip_3 : strip (" " +:+ nl +:+ "a b" +:+ nl) = "a b".
Proof. reflexivity. Qed.
Example basename_3 : basename "/home/u/.kip/ebay.com" = "ebay.com".
Proof. reflexivity. Qed.
Example getitem_neg : getitem ["a"; "b"; "c"] (-1) = Some "c".
Proof. reflexivity. Qed.

Section BuiltinFacts.

Lemma split_not_nil sep s : split sep s <> [].
Proof.
  destruct s as [|c s]; simpl; [discriminate|].
  destruct (Ascii.eqb c sep); [discriminate|].
  destruct (split sep s); discriminate.
Qed.

Lemma split_no_sep sep s : contains sep s = false -> split sep s = [s].
Proof.
  induction s as [|c s IH]; simpl; [reflexivity|].
  intros [Hc Hs]%orb_false_elim.
  rewrite Hc, (IH Hs). reflexivity.
Qed.

Lemma split_app_sep sep a b :
  contains sep a = false ->
  split sep (a +:+ String sep b) = a :: split sep b.
Proof.
  induction a as [|c a IH]; simpl.
  - intros _. rewrite Ascii.eqb_refl. reflexivity.
  - intros [Hc Ha]%orb_false_elim. rewrite Hc, (IH Ha). reflexivity.
Qed.

Lemma join_split sep s : join (String sep "") (split sep s) = s.
Proof.
  induction s as [|c s IH]; simpl; [reflexivity|].
  destruct (Ascii.eqb c sep) eqn:Hc.
  - apply Ascii.eqb_eq in Hc as ->.
    destruct (split sep s) as [|p ps] eqn:Hs.
    + exfalso. exact (split_not_nil _ _ Hs).
    + change (join (String sep "") ("" :: p :: ps))
        with (String sep (join (String sep "") (p :: ps))).
      rewrite IH. reflexivity.
  - destruct (split sep s) as [|p ps] eqn:Hs.
    + exfalso. exact (split_not_nil _ _ Hs).
    + destruct ps as [|q qs]; simpl in *; rewrite <- IH; reflexivity.
Qed.

(** The number of parts is one more than the number of separators. *)
Lemma length_split sep s : length (split sep s) = S (count sep s).
Proof.
  induction s as [|c s IH]; simpl; [reflexivity|].
  destruct (Ascii.eqb c sep); simpl.
  - rewrite IH. reflexivity.
  - destruct (split sep s); simpl in *; lia.
Qed.

Lemma count_contains c s : count c s = O <-> contains c s = false.
Proof.
  induction s as [|a s IH]; simpl; [tauto|].
  destruct (Ascii.eqb a c); simpl; [split; [lia|discriminate]|exact IH].
Qed.

Lemma getitem_0 {A} (x : A) l : getitem (x :: l) 0 = Some x.
Proof.
  unfold getitem. simpl length.
  replace (0 <? 0) with false by reflexivity. simpl.
  destruct (Z.leb_spec (Z.of_nat (S (length l))) 0); [lia|reflexivity].
Qed.

Lemma getitem_1 {A} (x y : A) l : getitem (x :: y :: l) 1 = Some y.
Proof.
  unfold getitem. simpl length.
  replace (1 <? 0) with false by reflexivity. simpl.
  destruct (Z.leb_spec (Z.of_nat (S (S (length l)))) 1); [lia|reflexivity].
Qed.

Lemma getitem_short {A} (l : list A) i :
  Z.of_nat (length l) <= i -> getitem l i = None.
Proof.
  intros H. unfold getitem.
  destruct (Z.ltb_spec i 0); [lia|].
  destruct (Z.ltb_spec i 0); [lia|].
  destruct (Z.leb_spec (Z.of_nat (length l)) i); [reflexivity|lia].
Qed.

Lemma getitem_last {A} (l : list A) x :
  getitem (l ++ [x]) (Z.of_nat (length (l ++ [x])) - 1) = Some x.
Proof.
  unfold getitem. rewrite length_app. simpl length.
  set (n := Z.of_nat (length l + 1)).
  assert (n = Z.of_nat (length l) + 1) by (unfold n; lia).
  destruct (Z.ltb_spec (n - 1) 0); [lia|].
  destruct (Z.ltb_spec (n - 1) 0); [lia|].
  destruct (Z.leb_spec n (n - 1)); [lia|]. simpl.
  replace (Z.to_nat (n - 1)) with (length l + 0)%nat by lia.
  rewrite lookup_app_r by lia.
  replace (length l + 0 - length l)%nat with O by lia. reflexivity.
Qed.

End BuiltinFacts.

(** ** The record format *)

Section RecordCodec.

Lemma serialize_parts r :
  contains LF (password r) = false ->
  contains LF (username r) = false ->
  split LF (serialize r) = password r :: username r :: split LF (notes r).
Proof.
  intros Hp Hu.
  change (serialize r)
    with (password r +:+ String LF (username r +:+ String LF (notes r))).
  rewrite (split_app_sep LF (password r)) by exact Hp.
  rewrite (split_app_sep LF (username r)) by exact Hu.
  reflexivity.
Qed.

Lemma deserialize_parts c p u rest :
  split LF c = p :: u :: rest ->
  deserialize c = Return (mkAccount p u (join nl rest)).
Proof.
  intros H. unfold deserialize. rewrite H, getitem_0, getitem_1.
  reflexivity.
Qed.

Lemma deserialize_serialize r :
  contains LF (password r) = false ->
  contains LF (username r) = false ->
  deserialize (serialize r) = Return r.
Proof.
  intros Hp Hu.
  rewrite (deserialize_parts _ _ _ _ (serialize_parts r Hp Hu)).
  unfold nl. rewrite join_split. destruct r; reflexivity.
Qed.

Lemma deserialize_inv c r :
  deserialize c = Return r ->
  exists rest, split LF c = password r :: username r :: rest
               /\ notes r = join nl rest.
Proof.
  unfold deserialize. intros H.
  destruct (split LF c) as [|p [|u rest]] eqn:Hs.
  - exfalso. exact (split_not_nil _ _ Hs).
  - rewrite getitem_0, getitem_short in H by (simpl; lia). discriminate.
  - rewrite getitem_0, getitem_1 in H. injection H as <-.
    exists rest. split; reflexivity.
Qed.

Lemma serialize_deserialize c r :
  deserialize c = Return r ->
  (2 < length (split LF c))%nat ->
  serialize r = c.
Proof.
  intros H Hlen. destruct (deserialize_inv c r H) as (rest & Hs & Hn).
  rewrite <- (join_split LF c), Hs. rewrite Hs in Hlen.
  destruct rest as [|q qs]; [simpl in Hlen; lia|].
  unfold serialize, TEMPLATE_format. rewrite Hn. reflexivity.
Qed.

End RecordCodec.

(** ** Running the monad *)

Section MonadFacts.

Lemma bind_run {A B} (m : Py A) (f : A -> Py B) w :
  (m ≫= f) w = match m w with
               | (Return a, w') => f a w'
               | (Raise e, w') => (Raise e, w')
               end.
Proof. reflexivity. Qed.

Lemma ret_run {A} (a : A) w : (mret a : Py A) w = (Return a, w).
Proof. reflexivity. Qed.

Lemma print_run s w : print s w = (Return tt, say [s] w).
Proof. reflexivity. Qed.

Lemma say_nil w : say [] w = w.
Proof. destruct w. unfold say, set_stdout. simpl. rewrite app_nil_r. reflexivity. Qed.

Lemma say_say a b w : say b (say a w) = say (a ++ b) w.
Proof. unfold say, set_stdout. simpl. rewrite app_assoc. reflexivity. Qed.

Lemma clipboard_say c l w :
  set_clipboard c (say l w) = say l (set_clipboard c w).
Proof. reflexivity. Qed.

Lemma fs_say l w : fs (say l w) = fs w.
Proof. reflexivity. Qed.

Lemma for_each_print {A} (g : A -> string) l w :
  for_each l (fun x => print (g x)) w = (Return tt, say (g <$> l) w).
Proof.
  revert w. induction l as [|x l IH]; intros w; simpl.
  - rewrite ret_run, say_nil. reflexivity.
  - rewrite bind_run, print_run, IH, say_say. reflexivity.
Qed.

Lemma index_run {A} (l : list A) i w :
  index l i w = match getitem l i with
                | Some x => (Return x, w)
                | None => (Raise IndexError, w)
                end.
Proof. unfold index. destruct (getitem l i); reflexivity. Qed.

End MonadFacts.

(** Runs the binds and prints at the head of the goal. *)
Ltac py_run :=
  repeat first
    [ rewrite bind_run | rewrite print_run | rewrite ret_run
    | rewrite clipboard_say | rewrite say_say
    | progress cbn [raise app] ].

(** ** Resolution of a name: [guess] and the [try] block of [show] *)

Section Resolver.

Context {host : Host}.

Lemma guess_one name w f :
  candidates name w = [f] -> guess name w = (Return f, w).
Proof.
  intros H. unfold guess, glob. rewrite bind_run.
  fold (candidates name w). rewrite H. reflexivity.
Qed.

Lemma guess_other name w :
  length (candidates name w) <> 1%nat ->
  guess name w
  = (Raise IOError, say ("Did you mean:" :: options (candidates name w)) w).
Proof.
  intros H. unfold guess, glob. rewrite bind_run.
  fold (candidates name w).
  destruct (Z.eqb_spec (len (candidates name w)) 1) as [E|_].
  { unfold len in E. lia. }
  rewrite bind_run, print_run, bind_run, for_each_print, say_say.
  reflexivity.
Qed.

Lemma guess_returns name w f w' :
  guess name w = (Return f, w') -> candidates name w = [f] /\ w' = w.
Proof.
  intros H.
  destruct (Nat.eq_dec (length (candidates name w)) 1%nat) as [E|E].
  - destruct (candidates name w) as [|g [|? ?]] eqn:Hc; try discriminate.
    rewrite (guess_one _ _ _ Hc) in H. injection H as <- <-. auto.
  - rewrite (guess_other _ _ E) in H. discriminate.
Qed.

Lemma exists_run p w :
  os_path_exists p w = (Return (bool_decide (is_Some (stat w p))), w).
Proof. reflexivity. Qed.

Lemma resolve_exact name w enc :
  stat w (HOME +:+ name) = Some (File enc) ->
  resolve name w = ((HOME +:+ name, Return enc), w).
Proof.
  intros H. unfold resolve. rewrite exists_run, H.
  rewrite bool_decide_eq_true_2 by eauto.
  unfold open_rt. rewrite H. reflexivity.
Qed.

Lemma resolve_missing name w :
  stat w (HOME +:+ name) = None ->
  resolve name w
  = match guess name w with
    | (Return g, w1) =>
        let w2 := say ["Guessing " +:+ bold (basename g)] w1 in
        ((g, (open_rt g w2).1), w2)
    | (Raise e, w1) => ((HOME +:+ name, Raise e), w1)
    end.
Proof.
  intros H. unfold resolve. rewrite exists_run, H.
  rewrite bool_decide_eq_false_2 by (intros [? ?]; discriminate).
  destruct (guess name w) as [[g|e] w1]; [|reflexivity].
  rewrite print_run. unfold open_rt.
  destruct (stat _ g) as [[?|]|]; reflexivity.
Qed.

End Resolver.

(** ** [show], once the file is open *)

Section Show.

Context {host : Host}.

Lemma copy_to_clipboard_ok msg w :
  spawn_error CLIP_CMD = None ->
  copy_to_clipboard msg w = (Return tt, set_clipboard (Some msg) w).
Proof.
  intros H. unfold copy_to_clipboard, try_except, Popen.
  rewrite H. reflexivity.
Qed.

Lemma copy_to_clipboard_unavailable msg w e :
  spawn_error CLIP_CMD = Some e ->
  copy_to_clipboard msg w
  = (Return tt,
     say [CLIP_CMD +:+ " -- " +:+ e; "XLIP is propably not installed"] w).
Proof.
  intros H. unfold copy_to_clipboard, try_except, Popen.
  rewrite H. py_run. reflexivity.
Qed.

Lemma emit_visible has_notes r w :
  emit true has_notes r w
  = (Return 0,
     say ([bold (username r); password r] ++ notes_line has_notes r) w).
Proof. unfold emit. destruct has_notes; py_run; reflexivity. Qed.

Lemma emit_clipboard has_notes r w :
  spawn_error CLIP_CMD = None ->
  emit false has_notes r w
  = (Return 0,
     say (bold (username r) :: notes_line has_notes r)
       (set_clipboard (Some (password r)) w)).
Proof.
  intros H. unfold emit.
  rewrite bind_run, print_run, bind_run, (copy_to_clipboard_ok _ _ H).
  destruct has_notes; py_run; reflexivity.
Qed.

Lemma emit_no_clipboard has_notes r w e :
  spawn_error CLIP_CMD = Some e ->
  emit false has_notes r w
  = (Return 0,
     say ([bold (username r); CLIP_CMD +:+ " -- " +:+ e;
           "XLIP is propably not installed"] ++ notes_line has_notes r) w).
Proof.
  intros H. unfold emit.
  rewrite bind_run, print_run, bind_run,
    (copy_to_clipboard_unavailable _ _ _ H).
  destruct has_notes; py_run; reflexivity.
Qed.

Lemma decrypt_run enc w :
  decrypt enc w = match spawn_error DECRYPT_CMD with
                  | Some e => (Raise (OSError e), w)
                  | None => (Return (gpg DECRYPT_CMD enc), w)
                  end.
Proof.
  unfold decrypt, execute, Popen. rewrite bind_run.
  destruct (spawn_error DECRYPT_CMD); reflexivity.
Qed.

Lemma encrypt_run plain w :
  encrypt plain w = match spawn_error ENCRYPT_CMD with
                    | Some e => (Raise (OSError e), w)
                    | None => (Return (gpg ENCRYPT_CMD plain), w)
                    end.
Proof.
  unfold encrypt, execute, Popen. rewrite bind_run.
  destruct (spawn_error ENCRYPT_CMD); reflexivity.
Qed.

(** [show] after its [try] block: the fields are taken out of the
    decrypted contents and emitted. *)
Lemma show_opened name is_visible w f enc w1 :
  resolve name w = ((f, Return enc), w1) ->
  spawn_error DECRYPT_CMD = None ->
  show name is_visible w
  = match deserialize (gpg DECRYPT_CMD enc) with
    | Return r =>
        emit is_visible (2 <? len (split LF (gpg DECRYPT_CMD enc))) r w1
    | Raise e => (Raise e, w1)
    end.
Proof.
  intros Hr Hs. unfold show. rewrite Hr, bind_run, decrypt_run, Hs.
  unfold deserialize. rewrite bind_run, index_run.
  destruct (getitem _ 0) as [p|]; [|reflexivity].
  rewrite bind_run, index_run.
  destruct (getitem _ 1) as [u|]; reflexivity.
Qed.

Lemma show_not_found name is_visible w f w1 :
  resolve name w = ((f, Raise IOError), w1) ->
  show name is_visible w = (Return 1, say ["File not found: " +:+ f] w1).
Proof. intros Hr. unfold show. rewrite Hr. reflexivity. Qed.

(** [show] never writes a file. *)
Lemma resolve_fs name w : fs (resolve name w).2 = fs w.
Proof.
  unfold resolve. rewrite exists_run.
  destruct (bool_decide _).
  - unfold open_rt. destruct (stat w _) as [[?|]|]; reflexivity.
  - destruct (Nat.eq_dec (length (candidates name w)) 1%nat) as [E|E].
    + destruct (candidates name w) as [|g [|? ?]] eqn:Hc; try discriminate.
      rewrite (guess_one _ _ _ Hc), print_run. unfold open_rt.
      destruct (stat _ g) as [[?|]|]; reflexivity.
    + rewrite (guess_other _ _ E). reflexivity.
Qed.

Lemma copy_to_clipboard_fs msg w : fs (copy_to_clipboard msg w).2 = fs w.
Proof.
  destruct (spawn_error CLIP_CMD) as [e|] eqn:H.
  - rewrite (copy_to_clipboard_unavailable _ _ _ H). reflexivity.
  - rewrite (copy_to_clipboard_ok _ _ H). reflexivity.
Qed.

Lemma emit_fs is_visible has_notes r w :
  fs (emit is_visible has_notes r w).2 = fs w.
Proof.
  destruct is_visible.
  - rewrite emit_visible. reflexivity.
  - destruct (spawn_error CLIP_CMD) as [e|] eqn:H.
    + rewrite (emit_no_clipboard _ _ _ _ H). reflexivity.
    + rewrite (emit_clipboard _ _ _ H). reflexivity.
Qed.

Lemma show_fs name is_visible w : fs (show name is_visible w).2 = fs w.
Proof.
  pose proof (resolve_fs name w) as Hfs.
  destruct (resolve name w) as [[f [enc|e]] w1] eqn:Hr; simpl in Hfs.
  - destruct (spawn_error DECRYPT_CMD) eqn:Hs.
    + unfold show. rewrite Hr, bind_run, decrypt_run, Hs. exact Hfs.
    + rewrite (show_opened _ _ _ _ _ _ Hr Hs).
      destruct (deserialize _); [|exact Hfs].
      rewrite emit_fs. exact Hfs.
  - unfold show. rewrite Hr. destruct (is_IOError e); exact Hfs.
Qed.

End Show.

(** ** The claims about [show] *)

Section ShowClaims.

Context {host : Host}.

(** C1 (where the code departs from the claim).  When the decrypted
    contents have fewer than two lines, [show] does not end with an error
    of its own for a malformed record: [parts[1]] is out of range, and
    the [IndexError] it raises leaves [show] uncaught, before anything is
    printed for the record. *)
Theorem show_short_record_raises_IndexError
    name is_visible w f enc w1 :
  resolve name w = ((f, Return enc), w1) ->
  spawn_error DECRYPT_CMD = None ->
  (length (split LF (gpg DECRYPT_CMD enc)) < 2)%nat ->
  show name is_visible w = (Raise IndexError, w1).
Proof.
  intros Hr Hs Hlen. rewrite (show_opened _ _ _ _ _ _ Hr Hs).
  unfold deserialize.
  rewrite (getitem_short _ 1) by lia.
  destruct (getitem _ 0); reflexivity.
Qed.

(** Fewer than two lines: no newline at all. *)
Lemma fewer_than_two_lines s :
  (length (split LF s) < 2)%nat <-> contains LF s = false.
Proof. rewrite length_split, <- count_contains. lia. Qed.

(** C2, as the code has it.  When the path [HOME + name] names nothing,
    neither a file nor a directory, the candidates are the matches of the
    pattern [HOME*name*].  With no candidate, [guess]
    raises [IOError] and [show] reports that the file was not found and
    returns 1.  With more than one, [guess] raises [IOError] after it
    has listed every candidate's name, and [show] again returns 1.  A
    file is opened only when there is exactly one candidate, and it is
    that candidate. *)
Theorem resolution_without_exact_match name is_visible w :
  stat w (HOME +:+ name) = None ->
  (candidates name w = [] ->
     guess name w = (Raise IOError, say ["Did you mean:"] w)
     /\ show name is_visible w
        = (Return 1,
           say ["Did you mean:"; "File not found: " +:+ HOME +:+ name] w))
  /\ ((1 < length (candidates name w))%nat ->
     guess name w
     = (Raise IOError,
        say ("Did you mean:" :: options (candidates name w)) w)
     /\ show name is_visible w
        = (Return 1,
           say ("Did you mean:" :: options (candidates name w)
                  ++ ["File not found: " +:+ HOME +:+ name]) w))
  /\ (forall f enc w1,
     resolve name w = ((f, Return enc), w1) ->
     candidates name w = [f]
     /\ w1 = say ["Guessing " +:+ bold (basename f)] w).
Proof.
  intros Hnone.
  assert (Hfail : length (candidates name w) <> 1%nat ->
            resolve name w
            = ((HOME +:+ name, Raise IOError),
               say ("Did you mean:" :: options (candidates name w)) w)).
  { intros Hc. rewrite (resolve_missing _ _ Hnone), (guess_other _ _ Hc).
    reflexivity. }
  split; [|split].
  - intros Hc.
    assert (Hlen : length (candidates name w) <> 1%nat)
      by (rewrite Hc; discriminate).
    split.
    + rewrite (guess_other _ _ Hlen), Hc. reflexivity.
    + rewrite (show_not_found _ _ _ _ _ (Hfail Hlen)), Hc.
      py_run. reflexivity.
  - intros Hc.
    assert (Hlen : length (candidates name w) <> 1%nat) by lia.
    split.
    + exact (guess_other _ _ Hlen).
    + rewrite (show_not_found _ _ _ _ _ (Hfail Hlen)).
      py_run. reflexivity.
  - intros f enc w1 H.
    rewrite (resolve_missing _ _ Hnone) in H.
    destruct (guess name w) as [[g|e] w'] eqn:Hg; [|discriminate].
    apply guess_returns in Hg as [Hg ->].
    simpl in H. injection H as <- _ <-. split; [exact Hg|reflexivity].
Qed.

(** C3.  When a file is named exactly [X], the [try] block of [show]
    opens that file, whatever other files there are and whatever the
    pattern [HOME*X*] would match: nothing is guessed and nothing is
    printed. *)
Theorem resolution_with_exact_match X is_visible w enc :
  stat w (HOME +:+ X) = Some (File enc) ->
  resolve X w = ((HOME +:+ X, Return enc), w)
  /\ show X is_visible w
     = (contents ← decrypt enc;
        match deserialize contents with
        | Return r => emit is_visible (2 <? len (split LF contents)) r
        | Raise e => raise e
        end) w.
Proof.
  intros H. pose proof (resolve_exact _ _ _ H) as Hr.
  split; [exact Hr|].
  rewrite bind_run, decrypt_run.
  destruct (spawn_error DECRYPT_CMD) eqn:Hs.
  - unfold show. rewrite Hr, bind_run, decrypt_run, Hs. reflexivity.
  - rewrite (show_opened _ _ _ _ _ _ Hr Hs).
    destruct (deserialize _); reflexivity.
Qed.

(** C8, as the code has it.  [show] prints a line of notes exactly when
    the decrypted contents have more than two lines, that is, at least
    two newlines; the line is everything after the second newline.  So
    notes that are not empty are always printed; and empty notes are
    printed, as an empty line, when the contents end with the second
    newline. *)
Theorem notes_emitted_iff_third_line name is_visible w f enc w1 r :
  resolve name w = ((f, Return enc), w1) ->
  spawn_error DECRYPT_CMD = None ->
  deserialize (gpg DECRYPT_CMD enc) = Return r ->
  let has_notes := 2 <? len (split LF (gpg DECRYPT_CMD enc)) in
  show name is_visible w = emit is_visible has_notes r w1
  /\ (has_notes = true <-> (2 <= count LF (gpg DECRYPT_CMD enc))%nat)
  /\ (notes r <> "" -> has_notes = true).
Proof.
  intros Hr Hs Hd has_notes. split; [|split].
  - rewrite (show_opened _ _ _ _ _ _ Hr Hs), Hd. reflexivity.
  - unfold has_notes, len. rewrite length_split, Z.ltb_lt. lia.
  - intros Hn. destruct (deserialize_inv _ _ Hd) as (rest & Hp & Hj).
    unfold has_notes, len. rewrite Hp, Z.ltb_lt.
    destruct rest; [exfalso; apply Hn; rewrite Hj; reflexivity|simpl; lia].
Qed.

(** C9.  When [xclip] cannot be started, [show] without [--print]
    still prints the user name, prints the two lines of warning in
    place of the copy, prints the notes as it otherwise would, and
    returns 0. *)
Theorem clipboard_unavailable_is_soft name w f enc w1 r e :
  resolve name w = ((f, Return enc), w1) ->
  spawn_error DECRYPT_CMD = None ->
  deserialize (gpg DECRYPT_CMD enc) = Return r ->
  spawn_error CLIP_CMD = Some e ->
  show name false w
  = (Return 0,
     say ([bold (username r);
           "xclip -- " +:+ e;
           "XLIP is propably not installed"]
          ++ notes_line (2 <? len (split LF (gpg DECRYPT_CMD enc))) r)
       w1).
Proof.
  intros Hr Hs Hd He.
  rewrite (show_opened _ _ _ _ _ _ Hr Hs), Hd.
  apply (emit_no_clipboard _ _ _ _ He).
Qed.

End ShowClaims.

(** ** [strip] and [pwgen] *)

Section Passwords.

Context {host : Host}.

Lemma all_chars_app P a b :
  all_chars P (a +:+ b) = all_chars P a && all_chars P b.
Proof.
  induction a as [|c a IH]; simpl; [reflexivity|].
  rewrite IH, andb_assoc. reflexivity.
Qed.

Lemma append_cons c a b : String c a +:+ b = String c (a +:+ b).
Proof. reflexivity. Qed.

Lemma append_nil b : "" +:+ b = b.
Proof. reflexivity. Qed.

Lemma lstrip_spec s :
  exists pre, s = pre +:+ lstrip s
              /\ all_chars isspace pre = true
              /\ starts_space (lstrip s) = false.
Proof.
  induction s as [|c s (pre & Hs & Hpre & Hst)].
  - exists "". auto.
  - cbn [lstrip]. destruct (isspace c) eqn:Hc.
    + exists (String c pre). cbn [all_chars]. rewrite Hc, Hpre.
      rewrite append_cons, <- Hs. auto.
    + exists "". rewrite append_nil. cbn [all_chars starts_space]. auto.
Qed.

Lemma rstrip_spec s :
  exists post, s = rstrip s +:+ post
               /\ all_chars isspace post = true
               /\ ends_space (rstrip s) = false.
Proof.
  induction s as [|c s (post & Hs & Hpost & Hend)].
  - exists "". auto.
  - cbn [rstrip]. destruct (rstrip s) as [|a r] eqn:Hr.
    + rewrite append_nil in Hs. destruct (isspace c) eqn:Hc.
      * exists (String c post). cbn [all_chars]. rewrite Hc, Hpost.
        rewrite append_nil, <- Hs. auto.
      * exists post. cbn [ends_space]. rewrite Hpost.
        rewrite append_cons, append_nil, <- Hs. auto.
    + exists post.
      split; [rewrite append_cons, <- Hs; reflexivity|].
      split; [exact Hpost|exact Hend].
Qed.

Lemma rstrip_starts s :
  starts_space s = false -> starts_space (rstrip s) = false.
Proof.
  destruct s as [|c s]; simpl; [auto|]. intros Hc.
  destruct (rstrip s); [rewrite Hc|]; simpl; auto.
Qed.

(** [strip] takes whitespace away at both ends, and nothing else. *)
Lemma strip_spec s :
  exists pre post,
    s = pre +:+ strip s +:+ post
    /\ all_chars isspace pre = true
    /\ all_chars isspace post = true
    /\ starts_space (strip s) = false
    /\ ends_space (strip s) = false.
Proof.
  destruct (lstrip_spec s) as (pre & Hs & Hpre & Hst).
  destruct (rstrip_spec (lstrip s)) as (post & Hl & Hpost & Hend).
  exists pre, post. unfold strip.
  split; [rewrite <- Hl; exact Hs|].
  split; [exact Hpre|]. split; [exact Hpost|].
  split; [apply rstrip_starts; exact Hst|exact Hend].
Qed.

Lemma lstrip_spaces s : all_chars isspace s = true -> lstrip s = "".
Proof.
  induction s as [|c s IH]; simpl; [reflexivity|].
  intros [Hc Hs]%andb_prop. rewrite Hc. auto.
Qed.

Lemma strip_empty s : strip s = "" <-> all_chars isspace s = true.
Proof.
  split.
  - intros H. destruct (strip_spec s) as (pre & post & Hs & Hpre & Hpost & _).
    rewrite Hs, H, !all_chars_app, Hpre, Hpost. reflexivity.
  - intros H. unfold strip. rewrite (lstrip_spaces _ H). reflexivity.
Qed.

Lemma substring_one s : forall i,
  (i < String.length s)%nat ->
  exists c, substring i 1 s = String c "" /\ contains c s = true.
Proof.
  induction s as [|a s IH]; simpl; intros i Hi; [lia|].
  destruct i as [|i].
  - exists a. rewrite Ascii.eqb_refl. destruct s; auto.
  - destruct (IH i) as (c & Hc & Hin); [lia|].
    exists c. rewrite Hc, Hin, orb_true_r. auto.
Qed.

Lemma choice_run alpha w d :
  alpha <> "" ->
  urandom w (drawn w) = Return d ->
  choice alpha w
  = (Return (substring (d mod String.length alpha) 1 alpha),
     set_drawn (S (drawn w)) w).
Proof.
  intros Hne Hd. unfold choice. rewrite Hd.
  destruct (Nat.eqb_spec (String.length alpha) 0) as [E|_]; [|reflexivity].
  destruct alpha; [congruence|discriminate E].
Qed.

Lemma set_drawn_same w : set_drawn (drawn w) w = w.
Proof. destruct w; reflexivity. Qed.

Lemma substring_zero s : substring 0 0 s = "".
Proof. destruct s; reflexivity. Qed.

(** The characters [collect] gathers, one draw each. *)
Lemma collect_choice {A} alpha (l : list A) : forall w,
  alpha <> "" ->
  draws_available w (drawn w) (length l) ->
  exists pw,
    (chars ← collect l (fun _ => choice alpha); mret (join "" chars)) w
    = (Return pw, set_drawn (drawn w + length l) w)
    /\ String.length pw = length l
    /\ all_chars (fun c => contains c alpha) pw = true
    /\ forall i, (i < length l)%nat ->
         exists d, urandom w (drawn w + i) = Return d
                   /\ substring i 1 pw
                      = substring (d mod String.length alpha) 1 alpha.
Proof.
  induction l as [|x l IH]; intros w Hne Hav.
  - exists "". rewrite bind_run. simpl. rewrite ret_run, Nat.add_0_r.
    rewrite set_drawn_same. repeat split. intros i Hi. lia.
  - destruct (Hav O ltac:(simpl; lia)) as [d Hd].
    rewrite Nat.add_0_r in Hd.
    pose proof (choice_run alpha w d Hne Hd) as Hc.
    destruct (substring_one alpha (d mod String.length alpha))
      as (c & Hsub & Hin).
    { apply Nat.mod_upper_bound. destruct alpha; [congruence|discriminate]. }
    rewrite Hsub in Hc.
    destruct (IH (set_drawn (S (drawn w)) w) Hne) as (pw & Hpw & Hlen & Hall & Hch).
    { intros i Hi. destruct (Hav (S i) ltac:(simpl; lia)) as [d' Hd'].
      exists d'. simpl. rewrite <- Hd'. f_equal. lia. }
    rewrite bind_run in Hpw.
    destruct (collect l (fun _ => choice alpha) _) as [[chars|e] w'] eqn:Hrc;
      [|discriminate].
    rewrite ret_run in Hpw. injection Hpw as <- ->.
    exists (String c (join "" chars)).
    rewrite bind_run. simpl collect.
    rewrite bind_run, Hc, bind_run, Hrc. py_run.
    simpl length.
    replace (drawn w + S (length l))%nat with (S (drawn w) + length l)%nat
      by lia.
    split; [|split; [|split]].
    + unfold set_drawn. simpl. destruct chars as [|? [|? ?]]; reflexivity.
    + simpl. rewrite Hlen. reflexivity.
    + simpl. rewrite Hin, Hall. reflexivity.
    + intros [|i] Hi.
      * exists d. rewrite Nat.add_0_r. split; [exact Hd|].
        simpl. rewrite substring_zero, Hsub. reflexivity.
      * destruct (Hch i ltac:(lia)) as (d' & Hd' & Hs').
        exists d'. simpl in Hd'. split.
        -- rewrite <- Hd'. f_equal. lia.
        -- simpl. exact Hs'.
Qed.

Lemma range_run n w :
  (0 < n -> range_error n = None) ->
  range n w = (Return (Z.of_nat <$> seq 0 (Z.to_nat n)), w).
Proof.
  intros H. unfold range. destruct (Z.leb_spec n 0) as [Hn|Hn].
  - replace (Z.to_nat n) with O by lia. reflexivity.
  - rewrite (H Hn). reflexivity.
Qed.

Lemma pwgen_run n w :
  (0 < n -> range_error n = None) ->
  draws_available w (drawn w) (Z.to_nat n) ->
  exists pw,
    pwgen n w = (Return pw, set_drawn (drawn w + Z.to_nat n) w)
    /\ String.length pw = Z.to_nat n
    /\ all_chars (fun c => contains c alphabet) pw = true
    /\ forall i, (i < Z.to_nat n)%nat ->
         exists d, urandom w (drawn w + i) = Return d
                   /\ substring i 1 pw = substring (d mod 62) 1 alphabet.
Proof.
  intros Hr Hav. unfold pwgen. rewrite bind_run, (range_run _ _ Hr).
  pose proof (collect_choice alphabet (Z.of_nat <$> seq 0 (Z.to_nat n)) w)
    as H.
  rewrite length_fmap, length_seq in H.
  apply H; [discriminate|exact Hav].
Qed.

Lemma alphabet_chars :
  String.length alphabet = 62%nat
  /\ distinct alphabet = true
  /\ all_chars is_letter_or_digit alphabet = true.
Proof. repeat split; reflexivity. Qed.

Lemma password_source_piped piped w :
  stdin w = Some piped ->
  password_source w = (Return (strip piped), set_stdin (Some "") w).
Proof.
  intros H. unfold password_source, sys_stdin_isatty, sys_stdin_read.
  rewrite bind_run, H. simpl. rewrite bind_run, H. reflexivity.
Qed.

Lemma password_source_terminal w :
  stdin w = None ->
  password_source w = pwgen PW_LEN w.
Proof.
  intros H. unfold password_source, sys_stdin_isatty.
  rewrite bind_run, H. reflexivity.
Qed.

End Passwords.

(** ** [create] and [main] *)

Section Create.

Context {host : Host}.

Lemma stat_ext w w' p :
  fs w' = fs w -> cwd w' = cwd w -> stat w' p = stat w p.
Proof. intros Hf Hc. unfold stat, place. rewrite Hf, Hc. reflexivity. Qed.

Lemma wt_target_ext w w' p :
  fs w' = fs w -> cwd w' = cwd w -> wt_target w' p = wt_target w p.
Proof. intros Hf Hc. unfold wt_target, place. rewrite Hf, Hc. reflexivity. Qed.

Lemma walk_mono (f f' : gmap (list string) node) comps : forall cur q,
  (forall x, is_dir f x = true -> is_dir f' x = true) ->
  walk f cur comps = Some q -> walk f' cur comps = Some q.
Proof.
  induction comps as [|c rest IH]; intros cur q Hm; simpl; [auto|].
  destruct (is_dir f cur) eqn:Hd; [|discriminate].
  rewrite (Hm _ Hd). apply IH, Hm.
Qed.

Lemma is_dir_insert (f : gmap (list string) node) q n x :
  f !! q <> Some Dir ->
  is_dir f x = true -> is_dir (<[q := n]> f) x = true.
Proof.
  intros Hq. destruct x as [|a x]; [reflexivity|]. simpl.
  destruct (f !! (a :: x)) as [[?|]|] eqn:E; try discriminate.
  intros _. rewrite lookup_insert_ne; [rewrite E; reflexivity|].
  intros ->. congruence.
Qed.

(** What was written at a path is what the path names afterwards. *)
Lemma stat_after_write w p q data :
  wt_target w p = Some q ->
  stat (set_fs (<[q := File data]> (fs w)) w) p = Some (File data).
Proof.
  unfold wt_target, stat, place. destruct p as [|c p]; [discriminate|].
  cbn [fs cwd set_fs].
  destruct (walk (fs w) _ _) as [q'|] eqn:Hw; [|discriminate].
  destruct q' as [|a q']; [discriminate|].
  destruct (is_dir (fs w) (removelast (a :: q'))); [|discriminate].
  destruct (fs w !! (a :: q')) as [[?|]|] eqn:E; intros [= <-];
    (rewrite (walk_mono (fs w) _ _ _ _ (fun x => is_dir_insert (fs w) (a :: q') (File data) x ltac:(congruence)) Hw);
     apply lookup_insert_eq).
Qed.

(** The world the password source leaves, however it ends: the same but
    for what it read and drew. *)
Lemma collect_choice_world {A} alpha (l : list A) : forall w,
  exists k,
    (collect l (fun _ => choice alpha) w).2 = set_drawn k w
    /\ (drawn w <= k <= drawn w + length l)%nat.
Proof.
  induction l as [|x l IH]; intros w; simpl.
  - exists (drawn w). rewrite set_drawn_same. split; [reflexivity|lia].
  - rewrite bind_run. unfold choice at 1.
    destruct (urandom w (drawn w)) as [d|e].
    + destruct (String.length alpha =? 0)%nat.
      * exists (S (drawn w)). split; [reflexivity|lia].
      * rewrite bind_run.
        destruct (IH (set_drawn (S (drawn w)) w)) as (k & Hk & Hb).
        destruct (collect l _ _) as [[ys|e] w']; simpl in Hk; subst w';
          exists k; simpl in Hb; (split; [reflexivity|lia]).
    + exists (drawn w). rewrite set_drawn_same. split; [reflexivity|lia].
Qed.

Lemma pwgen_world n w :
  exists k,
    (pwgen n w).2 = set_drawn k w
    /\ (drawn w <= k <= drawn w + Z.to_nat n)%nat.
Proof.
  unfold pwgen. rewrite bind_run. unfold range.
  destruct (n <=? 0).
  - rewrite ret_run, bind_run. simpl collect. rewrite ret_run.
    exists (drawn w). rewrite set_drawn_same. split; [reflexivity|lia].
  - destruct (range_error n).
    + exists (drawn w). rewrite set_drawn_same. split; [reflexivity|lia].
    + rewrite ret_run, bind_run.
      destruct (collect_choice_world
                  (slice 0 52 letters +:+ digits)
                  (Z.of_nat <$> seq 0 (Z.to_nat n)) w) as (k & Hk & Hb).
      rewrite length_fmap, length_seq in Hb.
      destruct (collect _ _ w) as [[ys|e] w']; simpl in Hk; subst w';
        exists k; (split; [reflexivity|exact Hb]).
Qed.

Lemma password_source_world w :
  match stdin w with
  | Some _ => (password_source w).2 = set_stdin (Some "") w
  | None => exists k, (password_source w).2 = set_drawn k w
                      /\ (drawn w <= k <= drawn w + 19)%nat
  end.
Proof.
  destruct (stdin w) as [piped|] eqn:Hin.
  - rewrite (password_source_piped _ _ Hin). reflexivity.
  - rewrite (password_source_terminal _ Hin). apply (pwgen_world PW_LEN).
Qed.

Lemma password_source_files w :
  fs (password_source w).2 = fs w /\ cwd (password_source w).2 = cwd w.
Proof.
  pose proof (password_source_world w) as H.
  destruct (stdin w); [rewrite H; auto|].
  destruct H as (k & -> & _). auto.
Qed.

(** The password comes when it is piped, and when it can be generated:
    [range(19)] finds room and the entropy source can be read 19 times. *)
Lemma password_source_returns w :
  (stdin w = None ->
     range_error PW_LEN = None /\ draws_available w (drawn w) 19) ->
  exists pw w0,
    password_source w = (Return pw, w0)
    /\ fs w0 = fs w /\ cwd w0 = cwd w
    /\ match stdin w with
       | Some piped => pw = strip piped
       | None =>
           w0 = set_drawn (drawn w + 19) w
           /\ String.length pw = 19%nat
           /\ all_chars (fun c => contains c alphabet) pw = true
           /\ forall i, (i < 19)%nat ->
                exists d, urandom w (drawn w + i) = Return d
                          /\ substring i 1 pw
                             = substring (d mod 62) 1 alphabet
       end.
Proof.
  intros Hgen. destruct (stdin w) as [piped|] eqn:Hin.
  - exists (strip piped), (set_stdin (Some "") w).
    rewrite (password_source_piped _ _ Hin). auto.
  - destruct (Hgen eq_refl) as [Hr Hav].
    destruct (pwgen_run PW_LEN w (fun _ => Hr) Hav)
      as (pw & Hpw & Hlen & Hall & Hch).
    exists pw, (set_drawn (drawn w + Z.to_nat PW_LEN) w).
    rewrite (password_source_terminal _ Hin), Hpw.
    repeat split; auto.
Qed.

Lemma create_run name username notes w :
  create name username notes w
  = match password_source w with
    | (Return pw, w0) =>
        match spawn_error ENCRYPT_CMD with
        | Some e => (Raise (OSError e), w0)
        | None =>
            match wt_target w0 (HOME +:+ name) with
            | None => (Raise IOError, w0)
            | Some q =>
                show name false
                  (written q (pw +:+ String LF (username +:+ String LF notes))
                     w0)
            end
        end
    | (Raise e, w0) => (Raise e, w0)
    end.
Proof.
  assert (Hn : (if String.eqb notes "" then "" else notes) = notes)
    by (destruct (String.eqb_spec notes ""); congruence).
  assert (Hk : forall pw w0,
    (enc ← encrypt (TEMPLATE_format pw username notes);
     write_wt (HOME +:+ name) enc ;; show name false) w0
    = match spawn_error ENCRYPT_CMD with
      | Some e => (Raise (OSError e), w0)
      | None =>
          match wt_target w0 (HOME +:+ name) with
          | None => (Raise IOError, w0)
          | Some q =>
              show name false
                (written q (pw +:+ String LF (username +:+ String LF notes))
                   w0)
          end
      end).
  { intros pw w0. rewrite bind_run, encrypt_run.
    destruct (spawn_error ENCRYPT_CMD); [reflexivity|].
    rewrite bind_run. unfold write_wt.
    destruct (wt_target w0 (HOME +:+ name)); reflexivity. }
  unfold create. rewrite Hn, bind_run.
  destruct (stdin w) as [piped|] eqn:Hin.
  - rewrite (password_source_piped _ _ Hin).
    unfold sys_stdin_isatty, sys_stdin_read. rewrite Hin.
    cbn [negb]. rewrite !bind_run, Hin, ret_run. apply Hk.
  - rewrite (password_source_terminal _ Hin).
    unfold sys_stdin_isatty. rewrite Hin. cbn [negb]. rewrite bind_run.
    destruct (pwgen PW_LEN w) as [[pw|e] w0]; [apply Hk|reflexivity].
Qed.

(** [create] when the password comes, gpg is there to run and the file
    can be written at the place [q]. *)
Lemma create_stores name username notes w q :
  (stdin w = None ->
     range_error PW_LEN = None /\ draws_available w (drawn w) 19) ->
  spawn_error ENCRYPT_CMD = None ->
  wt_target w (HOME +:+ name) = Some q ->
  exists pw w0,
    password_source w = (Return pw, w0)
    /\ create name username notes w
       = show name false
           (written q (pw +:+ String LF (username +:+ String LF notes)) w0)
    /\ fs (create name username notes w).2 !! q
       = Some (File (gpg ENCRYPT_CMD
                       (pw +:+ String LF (username +:+ String LF notes))))
    /\ match stdin w with
       | Some piped => pw = strip piped
       | None =>
           w0 = set_drawn (drawn w + 19) w
           /\ String.length pw = 19%nat
           /\ all_chars (fun c => contains c alphabet) pw = true
           /\ forall i, (i < 19)%nat ->
                exists d, urandom w (drawn w + i) = Return d
                          /\ substring i 1 pw
                             = substring (d mod 62) 1 alphabet
       end.
Proof.
  intros Hgen Hs Hq.
  destruct (password_source_returns w Hgen)
    as (pw & w0 & Hpw & Hfs & Hcwd & Hsrc).
  exists pw, w0.
  assert (Hc : create name username notes w
               = show name false
                   (written q
                      (pw +:+ String LF (username +:+ String LF notes)) w0)).
  { rewrite create_run, Hpw, Hs, (wt_target_ext _ _ _ Hfs Hcwd), Hq.
    reflexivity. }
  rewrite Hc. repeat split; auto.
  rewrite show_fs. unfold written. simpl. apply lookup_insert_eq.
Qed.

Lemma mkdir_run w :
  try_except (os_mkdir HOME) is_OSError (fun _ => mret tt) w
  = (Return tt, mkdir_home w).
Proof.
  unfold try_except, os_mkdir, mkdir_home.
  destruct (mkdir_target w HOME); reflexivity.
Qed.

Lemma getitem_nat {A} (l : list A) (n : nat) :
  (n < length l)%nat -> getitem l (Z.of_nat n) = l !! n.
Proof.
  intros H. unfold getitem.
  destruct (Z.ltb_spec (Z.of_nat n) 0); [lia|].
  destruct (Z.ltb_spec (Z.of_nat n) 0); [lia|].
  destruct (Z.leb_spec (Z.of_nat (length l)) (Z.of_nat n)); [lia|].
  simpl. rewrite Nat2Z.id. reflexivity.
Qed.

(** [main] on an argument vector of length 2 at least *)
Lemma main_run arg w x :
  (2 <= length (argv_of arg))%nat ->
  last (argv_of arg) = Some x ->
  main arg w
  = (if (len (argv_of arg) =? 2) || String.eqb x "--print" then
       name ← index (argv_of arg) 1;
       show name (String.eqb x "--print")
     else
       match drop 1 (argv_of arg) with
       | [name; username] => create name username ""
       | [name; username; notes] => create name username notes
       | _ => raise TypeError
       end) (mkdir_home w).
Proof.
  intros Hlen Hlast. unfold main. fold (argv_of arg).
  destruct (Z.eqb_spec (len (argv_of arg)) 1) as [E|_].
  { unfold len in E. lia. }
  rewrite bind_run, mkdir_run, bind_run, index_run.
  apply last_Some in Hlast as [l Hl]. rewrite Hl.
  unfold len. rewrite getitem_last. reflexivity.
Qed.

End Create.

(** ** Further properties: the record format and [pwgen] *)

Section MoreCodec.

Context {host : Host}.

Lemma split_parts_no_sep sep s :
  Forall (fun p => contains sep p = false) (split sep s).
Proof.
  induction s as [|c s IH]; simpl.
  - constructor; [reflexivity|constructor].
  - destruct (Ascii.eqb c sep) eqn:Hc.
    + constructor; [reflexivity|exact IH].
    + destruct (split sep s) as [|p ps]; [repeat constructor; simpl|].
      * rewrite Hc. reflexivity.
      * inversion IH as [|? ? Hp Hps]; subst.
        constructor; [simpl; rewrite Hc, Hp; reflexivity|exact Hps].
Qed.

(** The records that come back from their serialized form are exactly
    those whose password and user name hold no newline: the fields [show]
    takes out of a file are always single lines. *)
Theorem round_trip_iff_single_line r :
  deserialize (serialize r) = Return r
  <-> contains LF (password r) = false /\ contains LF (username r) = false.
Proof.
  split.
  - intros H. destruct (deserialize_inv _ _ H) as (rest & Hs & _).
    pose proof (split_parts_no_sep LF (serialize r)) as Hall.
    rewrite Hs in Hall.
    inversion Hall as [|? ? Hp Hrest]; subst.
    inversion Hrest as [|? ? Hu _]; subst. auto.
  - intros [Hp Hu]. apply deserialize_serialize; assumption.
Qed.

Lemma contains_all_chars P s c :
  all_chars P s = true -> contains c s = true -> P c = true.
Proof.
  induction s as [|a s IH]; simpl; [discriminate|].
  intros [Ha Hs]%andb_prop [Hc|Hc]%orb_prop.
  - apply Ascii.eqb_eq in Hc as <-. exact Ha.
  - auto.
Qed.

Lemma all_chars_weaken (P Q : ascii -> bool) s :
  (forall c, P c = true -> Q c = true) ->
  all_chars P s = true -> all_chars Q s = true.
Proof.
  intros HPQ. induction s as [|a s IH]; simpl; [reflexivity|].
  intros [Ha Hs]%andb_prop. rewrite (HPQ _ Ha), (IH Hs). reflexivity.
Qed.

Lemma letters_and_digits_no_newline s :
  all_chars is_letter_or_digit s = true -> contains LF s = false.
Proof.
  induction s as [|a s IH]; simpl; [reflexivity|].
  intros [Ha Hs]%andb_prop. rewrite (IH Hs), orb_false_r.
  destruct (Ascii.eqb a LF) eqn:E; [|reflexivity].
  apply Ascii.eqb_eq in E. subst a. discriminate Ha.
Qed.

Lemma collect_choice_fails {A} alpha (l : list A) : forall w k e,
  alpha <> "" ->
  (k < length l)%nat ->
  draws_available w (drawn w) k ->
  urandom w (drawn w + k) = Raise e ->
  (chars ← collect l (fun _ => choice alpha); mret (join "" chars)) w
  = (Raise e, set_drawn (drawn w + k) w).
Proof.
  induction l as [|x l IH]; intros w k e Hne Hk Hav He; [simpl in Hk; lia|].
  rewrite bind_run. simpl collect. rewrite bind_run.
  destruct k as [|k].
  - rewrite Nat.add_0_r in He. unfold choice at 1. rewrite He.
    rewrite Nat.add_0_r, set_drawn_same. reflexivity.
  - destruct (Hav O ltac:(lia)) as [d Hd]. rewrite Nat.add_0_r in Hd.
    rewrite (choice_run alpha w d Hne Hd), bind_run.
    specialize (IH (set_drawn (S (drawn w)) w) k e Hne).
    rewrite bind_run in IH.
    destruct (collect l (fun _ => choice alpha) _) as [[chars|e'] w'].
    + rewrite ret_run in IH. exfalso.
      assert (H : (Return (join "" chars), w')
                  = (Raise e, set_drawn (drawn (set_drawn (S (drawn w)) w) + k)
                                (set_drawn (S (drawn w)) w))).
      { apply IH.
        - simpl in Hk. lia.
        - intros i Hi. destruct (Hav (S i) ltac:(lia)) as [d' Hd'].
          exists d'. simpl. rewrite <- Hd'. f_equal. lia.
        - simpl. rewrite <- He. f_equal. lia. }
      discriminate H.
    + rewrite IH.
      * simpl. replace (drawn w + S k)%nat with (S (drawn w + k)) by lia.
        reflexivity.
      * simpl in Hk. lia.
      * intros i Hi. destruct (Hav (S i) ltac:(lia)) as [d' Hd'].
        exists d'. simpl. rewrite <- Hd'. f_equal. lia.
      * simpl. rewrite <- He. f_equal. lia.
Qed.

(** [pwgen] on any length.  For a length of zero or less it returns the
    empty string and draws nothing.  When [range] finds no room for its
    list, it ends with the exception of [range], nothing drawn.  When a
    draw of the entropy source fails, it ends with the exception of that
    draw, the draws before it used.  Otherwise it returns as many
    characters as asked for, every one a letter or a digit, so no
    whitespace and no newline, and uses one draw per character. *)
Theorem pwgen_any_length n w :
  (n <= 0 -> pwgen n w = (Return "", w))
  /\ (forall e, 0 < n -> range_error n = Some e ->
      pwgen n w = (Raise e, w))
  /\ (forall k e,
      (0 < n -> range_error n = None) ->
      (k < Z.to_nat n)%nat ->
      draws_available w (drawn w) k ->
      urandom w (drawn w + k) = Raise e ->
      pwgen n w = (Raise e, set_drawn (drawn w + k) w))
  /\ ((0 < n -> range_error n = None) ->
      draws_available w (drawn w) (Z.to_nat n) ->
      exists pw,
        pwgen n w = (Return pw, set_drawn (drawn w + Z.to_nat n) w)
        /\ String.length pw = Z.to_nat n
        /\ all_chars is_letter_or_digit pw = true
        /\ contains LF pw = false).
Proof.
  split; [|split; [|split]].
  - intros Hn. unfold pwgen, range. rewrite bind_run.
    destruct (Z.leb_spec n 0); [reflexivity|lia].
  - intros e Hn He. unfold pwgen, range. rewrite bind_run.
    destruct (Z.leb_spec n 0); [lia|]. rewrite He. reflexivity.
  - intros k e Hr Hk Hav He. unfold pwgen.
    rewrite bind_run, (range_run _ _ Hr).
    apply collect_choice_fails; try assumption; [discriminate|].
    rewrite length_fmap, length_seq. exact Hk.
  - intros Hr Hav.
    destruct (pwgen_run n w Hr Hav) as (pw & Hrun & Hlen & Hall & _).
    assert (Hld : all_chars is_letter_or_digit pw = true).
    { revert Hall. apply all_chars_weaken. intros c Hc.
      apply (contains_all_chars _ alphabet c); [reflexivity|exact Hc]. }
    exists pw. repeat split; try assumption.
    apply letters_and_digits_no_newline, Hld.
Qed.

End MoreCodec.

(** ** Further properties: what a computation leaves as it was *)

Section Keeping.

Context {host : Host}.
Variable R : World -> World -> Prop.
Hypothesis R_refl : forall w, R w w.
Hypothesis R_trans : forall w1 w2 w3, R w1 w2 -> R w2 w3 -> R w1 w3.
Hypothesis R_say : forall l w, R w (say l w).

Lemma keeps_ret {A} (a : A) : keeps R (mret a : Py A).
Proof. intros w. apply R_refl. Qed.

Lemma keeps_raise {A} e : keeps R (raise e : Py A).
Proof. intros w. apply R_refl. Qed.

Lemma keeps_print s : keeps R (print s).
Proof. intros w. rewrite print_run. apply R_say. Qed.

Lemma keeps_bind {A B} (m : Py A) (f : A -> Py B) :
  keeps R m -> (forall a, keeps R (f a)) -> keeps R (m ≫= f).
Proof.
  intros Hm Hf w. rewrite bind_run. specialize (Hm w).
  destruct (m w) as [[a|e] w']; simpl in *; [|exact Hm].
  exact (R_trans _ _ _ Hm (Hf a w')).
Qed.

Lemma keeps_try {A} (m : Py A) caught handler :
  keeps R m -> (forall e, keeps R (handler e)) ->
  keeps R (try_except m caught handler).
Proof.
  intros Hm Hh w. unfold try_except. specialize (Hm w).
  destruct (m w) as [[a|e] w']; simpl in *; [exact Hm|].
  destruct (caught e); [|exact Hm].
  exact (R_trans _ _ _ Hm (Hh e w')).
Qed.

Lemma keeps_index {A} (l : list A) i : keeps R (index l i).
Proof. unfold index. destruct (getitem l i); [apply keeps_ret|apply keeps_raise]. Qed.

Lemma keeps_for_each {A} (l : list A) body :
  (forall x, keeps R (body x)) -> keeps R (for_each l body).
Proof.
  intros Hb. induction l as [|x l IH]; simpl.
  - apply keeps_ret.
  - apply keeps_bind; [apply Hb|intros _; exact IH].
Qed.

Lemma keeps_Popen cmd : keeps R (Popen cmd).
Proof. unfold Popen. destruct (spawn_error cmd); [apply keeps_raise|apply keeps_ret]. Qed.

Lemma keeps_decrypt enc : keeps R (decrypt enc).
Proof.
  unfold decrypt, execute.
  apply keeps_bind; [apply keeps_Popen|intros _; apply keeps_ret].
Qed.

Lemma keeps_guess name : keeps R (guess name).
Proof.
  unfold guess. apply keeps_bind; [intros w; apply R_refl|]. intros globs.
  destruct (len globs =? 1).
  - apply keeps_bind; [apply keeps_index|intros ?; apply keeps_ret].
  - apply keeps_bind; [apply keeps_print|]. intros _.
    apply keeps_bind; [|intros _; apply keeps_raise].
    apply keeps_for_each. intros ?. apply keeps_print.
Qed.

Lemma keeps_resolve name w : R w (resolve name w).2.
Proof.
  unfold resolve. rewrite exists_run.
  assert (Hopen : forall p w', (open_rt p w').2 = w').
  { intros p w'. unfold open_rt. destruct (stat w' p) as [[?|]|]; reflexivity. }
  destruct (bool_decide _).
  - specialize (Hopen (HOME +:+ name) w).
    destruct (open_rt (HOME +:+ name) w) as [o w']. simpl in *.
    subst w'. apply R_refl.
  - pose proof (keeps_guess name w) as Hg.
    destruct (guess name w) as [[g|e] w1]; simpl in Hg; [|exact Hg].
    rewrite print_run.
    specialize (Hopen g (say ["Guessing " +:+ bold (basename g)] w1)).
    destruct (open_rt g _) as [o w']. simpl in *. subst w'.
    exact (R_trans _ _ _ Hg (R_say _ _)).
Qed.

(** [show], given how the password is delivered *)
Lemma keeps_show name is_visible :
  (is_visible = false -> forall msg, keeps R (copy_to_clipboard msg)) ->
  keeps R (show name is_visible).
Proof.
  intros Hclip w. unfold show.
  pose proof (keeps_resolve name w) as Hr.
  destruct (resolve name w) as [[f [enc|e]] w1]; simpl in Hr.
  - eapply R_trans; [exact Hr|].
    revert w1 Hr. intros w1 _.
    apply (keeps_bind (decrypt enc)); [apply keeps_decrypt|]. intros contents.
    apply keeps_bind; [apply keeps_index|]. intros password.
    apply keeps_bind; [apply keeps_index|]. intros username.
    apply keeps_bind; [apply keeps_print|]. intros _.
    apply keeps_bind.
    { destruct is_visible; [apply keeps_print|apply Hclip; reflexivity]. }
    intros _. apply keeps_bind; [|intros _; apply keeps_ret].
    destruct (2 <? _); [apply keeps_print|apply keeps_ret].
  - destruct (is_IOError e); [|exact Hr].
    eapply R_trans; [exact Hr|].
    apply (keeps_bind (print _)); [apply keeps_print|].
    intros _. apply keeps_ret.
Qed.

End Keeping.

(** ** Further properties of [show] *)

Section MoreShow.

Context {host : Host}.

Lemma quiet_refl w : quiet w w.
Proof. repeat split. Qed.

Lemma quiet_trans w1 w2 w3 : quiet w1 w2 -> quiet w2 w3 -> quiet w1 w3.
Proof.
  intros (A1 & B1 & C1 & D1 & E1) (A2 & B2 & C2 & D2 & E2).
  repeat split; congruence.
Qed.

Lemma quiet_say l w : quiet w (say l w).
Proof. repeat split. Qed.

Lemma copy_to_clipboard_quiet msg : keeps quiet (copy_to_clipboard msg).
Proof.
  intros w. destruct (spawn_error CLIP_CMD) as [e|] eqn:H.
  - rewrite (copy_to_clipboard_unavailable _ _ _ H). apply quiet_say.
  - rewrite (copy_to_clipboard_ok _ _ H). repeat split.
Qed.

Lemma show_quiet name is_visible w : quiet w (show name is_visible w).2.
Proof.
  apply (keeps_show quiet quiet_refl quiet_trans quiet_say).
  intros _ msg. apply copy_to_clipboard_quiet.
Qed.

(** [show] reads only: it leaves the files, standard input and the
    entropy source as they were, whatever it finds and however it ends;
    and with the password visible it leaves the clipboard as it was. *)
Theorem show_reads_only name is_visible w :
  quiet w (show name is_visible w).2
  /\ same_clipboard w (show name true w).2.
Proof.
  split.
  - apply show_quiet.
  - apply (keeps_show same_clipboard); try (intros; discriminate).
    + intros ?. reflexivity.
    + unfold same_clipboard. intros ? ? ? H1 H2. congruence.
    + intros ? ?. reflexivity.
Qed.

(** The two deliveries.  With the password visible, [show] prints the
    user name in bold, then the password, then the notes.  Without, and
    with [xclip] there to run, it prints the user name and the notes only,
    and the clipboard holds the password. *)
Theorem show_delivers name w f enc w1 r :
  resolve name w = ((f, Return enc), w1) ->
  spawn_error DECRYPT_CMD = None ->
  deserialize (gpg DECRYPT_CMD enc) = Return r ->
  let has_notes := 2 <? len (split LF (gpg DECRYPT_CMD enc)) in
  show name true w
  = (Return 0,
     say ([bold (username r); password r] ++ notes_line has_notes r) w1)
  /\ (spawn_error CLIP_CMD = None ->
      show name false w
      = (Return 0,
         say (bold (username r) :: notes_line has_notes r)
           (set_clipboard (Some (password r)) w1))).
Proof.
  intros Hr Hs Hd has_notes. split.
  - rewrite (show_opened _ _ _ _ _ _ Hr Hs), Hd. apply emit_visible.
  - intros Hc. rewrite (show_opened _ _ _ _ _ _ Hr Hs), Hd.
    apply (emit_clipboard _ _ _ Hc).
Qed.

(** A name whose path is a directory (the empty name, for one, whose path
    is [HOME] itself) is reported as not found, with status 1: nothing is
    guessed. *)
Theorem show_directory_not_found name is_visible w :
  stat w (HOME +:+ name) = Some Dir ->
  show name is_visible w
  = (Return 1, say ["File not found: " +:+ HOME +:+ name] w).
Proof.
  intros H. apply show_not_found.
  unfold resolve. rewrite exists_run, H.
  rewrite bool_decide_eq_true_2 by eauto.
  unfold open_rt. rewrite H. reflexivity.
Qed.


(** When gpg cannot be started, [show] ends with the [OSError] of
    [Popen], uncaught, once the file is open: the record is not shown and
    no status is returned. *)
Theorem show_without_gpg name is_visible w f enc w1 e :
  resolve name w = ((f, Return enc), w1) ->
  spawn_error DECRYPT_CMD = Some e ->
  show name is_visible w = (Raise (OSError e), w1).
Proof.
  intros Hr Hs. unfold show. rewrite Hr, bind_run, decrypt_run, Hs.
  reflexivity.
Qed.

End MoreShow.

(** ** The claims about the record format, [create] and [main] *)

Section CreateClaims.

Context {host : Host}.

(** C4, as the code has it.  For every record whose password and user
    name hold no newline, what [show] takes out of what [create] wrote
    is the record again, whatever the notes are: empty, or of several
    lines.  And whenever the contents have more than two lines, the
    notes taken out are everything after the second newline, unchanged:
    the contents are the serialized form of the record taken out. *)
Theorem deserialize_serialize_single_line :
  (forall r,
     contains LF (password r) = false ->
     contains LF (username r) = false ->
     deserialize (serialize r) = Return r)
  /\ (forall c r,
     deserialize c = Return r ->
     (2 < length (split LF c))%nat ->
     serialize r = c).
Proof. split; [exact deserialize_serialize|exact serialize_deserialize]. Qed.


Lemma show_drawn name is_visible w :
  drawn (show name is_visible w).2 = drawn w.
Proof. destruct (show_quiet name is_visible w) as (_ & _ & _ & _ & H). exact H. Qed.

Lemma show_stat name is_visible w p :
  stat (show name is_visible w).2 p = stat w p.
Proof.
  destruct (show_quiet name is_visible w) as (Hf & Hc & _).
  apply stat_ext; assumption.
Qed.

(** C6.  When gpg is there to run and the file can be written, the
    plaintext [create] encrypts and leaves in the file is password,
    newline, user name, newline, notes, with this password.  With piped
    input: the input without the whitespace at its two ends and otherwise
    unchanged.  With a terminal, when [range(19)] finds room and the
    entropy source can be read: 19 characters, the i-th being the
    character of the alphabet of 62 letters and digits picked by the next
    draw, unused so far, of the entropy source; 19 draws are used. *)
Theorem create_password_source name username notes w q :
  (stdin w = None ->
     range_error PW_LEN = None /\ draws_available w (drawn w) 19) ->
  spawn_error ENCRYPT_CMD = None ->
  wt_target w (HOME +:+ name) = Some q ->
  exists pw,
    fs (create name username notes w).2 !! q
    = Some (File (gpg ENCRYPT_CMD
                    (pw +:+ String LF (username +:+ String LF notes))))
    /\ match stdin w with
       | Some piped =>
           pw = strip piped
           /\ exists pre post,
                piped = pre +:+ pw +:+ post
                /\ all_chars isspace pre = true
                /\ all_chars isspace post = true
                /\ starts_space pw = false
                /\ ends_space pw = false
       | None =>
           PW_LEN = 19
           /\ String.length pw = 19%nat
           /\ (forall i, (i < 19)%nat ->
                exists d,
                  urandom w (drawn w + i) = Return d
                  /\ substring i 1 pw
                     = substring (d mod 62) 1
                         ("abcdefghijklmnopqrstuvwxyz"
                          +:+ "ABCDEFGHIJKLMNOPQRSTUVWXYZ" +:+ "0123456789"))
           /\ drawn (create name username notes w).2 = (drawn w + 19)%nat
       end.
Proof.
  intros Hgen Hs Hq.
  destruct (create_stores name username notes w q Hgen Hs Hq)
    as (pw & w0 & _ & Hc & Hst & Hsrc).
  exists pw. split; [exact Hst|].
  destruct (stdin w) as [piped|].
  - split; [exact Hsrc|]. subst pw. apply strip_spec.
  - destruct Hsrc as (Hw0 & Hlen & _ & Hch).
    split; [reflexivity|]. split; [exact Hlen|]. split; [exact Hch|].
    rewrite Hc, show_drawn, Hw0. reflexivity.
Qed.

Lemma split_head (c : ascii) s :
  Ascii.eqb c LF = false ->
  exists p ps, split LF (String c s) = String c p :: ps.
Proof.
  intros Hc. simpl. rewrite Hc.
  destruct (split LF s) as [|p ps]; eauto.
Qed.

(** C7, as the code has it.  When gpg is there to run and the file can
    be written, the password of the record [create] leaves in the file is
    not empty, and neither is the first line of the file's plaintext,
    provided that the piped input, if there is one, holds a character that
    is not whitespace (and that a password can be generated, if there is
    none). *)
Theorem stored_password_nonempty name username notes w q :
  (stdin w = None ->
     range_error PW_LEN = None /\ draws_available w (drawn w) 19) ->
  spawn_error ENCRYPT_CMD = None ->
  wt_target w (HOME +:+ name) = Some q ->
  (forall piped, stdin w = Some piped -> all_chars isspace piped = false) ->
  exists pw,
    pw <> ""
    /\ match stdin w with
       | Some piped => pw = strip piped
       | None => String.length pw = 19%nat
       end
    /\ stat (create name username notes w).2 (HOME +:+ name)
       = Some (File (gpg ENCRYPT_CMD
                       (pw +:+ String LF (username +:+ String LF notes))))
    /\ exists line rest,
         split LF (pw +:+ String LF (username +:+ String LF notes))
         = line :: rest
         /\ line <> "".
Proof.
  intros Hgen Hs Hq Hin.
  destruct (create_stores name username notes w q Hgen Hs Hq)
    as (pw & w0 & Hpw & Hc & _ & Hsrc).
  destruct (password_source_files w) as [Hfs Hcwd].
  rewrite Hpw in Hfs, Hcwd. simpl in Hfs, Hcwd.
  exists pw.
  assert (Hfirst : exists c pw', pw = String c pw' /\ Ascii.eqb c LF = false).
  { destruct (stdin w) as [piped|].
    - destruct (strip_spec piped) as (_ & _ & _ & _ & _ & Hst & _).
      subst pw. destruct (strip piped) as [|c pw'] eqn:E.
      + apply strip_empty in E. rewrite (Hin piped eq_refl) in E.
        discriminate.
      + exists c, pw'. split; [reflexivity|].
        simpl in Hst. destruct (Ascii.eqb c LF) eqn:Ec; [|reflexivity].
        apply Ascii.eqb_eq in Ec. subst c. discriminate Hst.
    - destruct Hsrc as (_ & Hlen & Hall & _).
      destruct pw as [|c pw']; [discriminate|].
      exists c, pw'. split; [reflexivity|].
      simpl in Hall. apply andb_prop in Hall as [Hall _].
      destruct (Ascii.eqb c LF) eqn:Ec; [|reflexivity].
      apply Ascii.eqb_eq in Ec. subst c. discriminate Hall. }
  destruct Hfirst as (c & pw' & -> & Hc').
  split; [discriminate|]. split.
  { destruct (stdin w); [exact Hsrc|]. apply Hsrc. }
  split.
  - rewrite Hc, show_stat. unfold written. apply stat_after_write.
    rewrite (wt_target_ext _ _ _ Hfs Hcwd). exact Hq.
  - rewrite append_cons.
    destruct (split_head c (pw' +:+ String LF (username +:+ String LF notes))
                Hc') as (p & ps & Hsp).
    exists (String c p), ps. split; [exact Hsp|discriminate].
Qed.

(** C10.  Whenever the argument vector has at least two elements and
    ends with [--print], [main] runs [show] on [argv[1]] with the
    password visible, however many arguments there are; no file is
    written, so nothing is created. *)
Theorem print_last_always_shows arg w :
  (2 <= length (argv_of arg))%nat ->
  last (argv_of arg) = Some "--print" ->
  exists name,
    argv_of arg !! 1%nat = Some name
    /\ main arg w = show name true (mkdir_home w)
    /\ fs (main arg w).2 = fs (mkdir_home w).
Proof.
  intros Hlen Hlast.
  destruct (lookup_lt_is_Some_2 (argv_of arg) 1%nat ltac:(lia))
    as [name Hname].
  exists name. split; [exact Hname|].
  assert (Hm : main arg w = show name true (mkdir_home w)).
  { rewrite (main_run _ _ _ Hlen Hlast).
    replace (String.eqb "--print" "--print") with true by reflexivity.
    rewrite orb_true_r, bind_run, index_run.
    change 1 with (Z.of_nat 1).
    rewrite (getitem_nat (argv_of arg) 1) by lia.
    rewrite Hname. reflexivity. }
  split; [exact Hm|]. rewrite Hm. apply show_fs.
Qed.

End CreateClaims.

(** ** The claims on the concrete machine *)

Section OnTheMachine.

Import Demo.

Lemma length_append a b :
  String.length (a +:+ b) = (String.length a + String.length b)%nat.
Proof. induction a as [|c a IH]; simpl; [reflexivity|]. rewrite IH. reflexivity. Qed.

(** C1 at the entry [broken], whose plaintext is the single line
    [S3cret]: [show] raises [IndexError]. *)
Lemma show_broken_raises_IndexError :
  show (host := machine) "broken" false broken = (Raise IndexError, broken).
Proof.
  apply (show_short_record_raises_IndexError (host := machine)
           "broken" false broken (home +:+ "broken") "gpg:S3cret" broken).
  - vm_compute. reflexivity.
  - reflexivity.
  - vm_compute. lia.
Defined.

(** C2 at the name [ebay], which nothing has and two entries match. *)
Lemma show_ebay_is_ambiguous :
  show (host := machine) "ebay" false ebay
  = (Return 1,
     say ["Did you mean:"; " - ebay.com"; " - ebay.co.uk";
          "File not found: /home/u/.kip/ebay"] ebay).
Proof.
  assert (Hnone : stat ebay (@HOME machine +:+ "ebay") = None)
    by (vm_compute; reflexivity).
  assert (Hmany : (1 < length (candidates (host := machine) "ebay" ebay))%nat)
    by (vm_compute; lia).
  rewrite (proj2 (proj1 (proj2
    (resolution_without_exact_match (host := machine)
       "ebay" false ebay Hnone)) Hmany)).
  vm_compute. reflexivity.
Defined.

(** C2 as stated fails: no file is named by the empty name, whose path
    is the directory [home] itself, and two entries match; [show] lists
    no candidate. *)
Lemma directory_is_not_guessed :
  ~ (forall (host : Host) name is_visible w,
       (forall enc, stat w (HOME +:+ name) <> Some (File enc)) ->
       (1 < length (candidates name w))%nat ->
       show name is_visible w
       = (Return 1,
          say ("Did you mean:" :: options (candidates name w)
                 ++ ["File not found: " +:+ HOME +:+ name]) w)).
Proof.
  intros H. specialize (H machine "" false ebay).
  assert (Hout : stdout (show (host := machine) "" false ebay).2
                 = ["File not found: /home/u/.kip/"])
    by (vm_compute; reflexivity).
  rewrite H in Hout.
  - vm_compute in Hout. discriminate Hout.
  - intros enc. vm_compute. discriminate.
  - vm_compute. lia.
Qed.

(** C3 at the entry [ebay], with [ebay.com] beside it. *)
Lemma show_ebay_exact :
  resolve (host := machine) "ebay" nested
  = ((home +:+ "ebay", Return ("gpg:hunter2" +:+ nl +:+ "bob")), nested).
Proof.
  apply (resolution_with_exact_match (host := machine) "ebay" false nested).
  vm_compute. reflexivity.
Defined.

(** C4 on a record with notes of two lines. *)
Lemma two_line_notes_round_trip :
  deserialize (serialize two_line_notes) = Return two_line_notes.
Proof.
  apply (proj1 deserialize_serialize_single_line two_line_notes);
    reflexivity.
Defined.

(** C4 as stated fails: a password of two lines does not come back. *)
Lemma round_trip_fails_on_password_with_newline :
  ~ (forall r, deserialize (serialize r) = Return r).
Proof.
  intros H. specialize (H (mkAccount ("a" +:+ nl +:+ "b") "u" "")).
  vm_compute in H. discriminate H.
Qed.

(** Such a record is one [create] can write: the piped password
    [a], newline, [b] is shown again as [a]. *)
Example create_password_of_two_lines :
  let r := create (host := machine) "x.org" "u" ""
             (piped ("a" +:+ nl +:+ "b")) in
  r.1 = Return 0 /\ clipboard r.2 = Some "a".
Proof. vm_compute. split; reflexivity. Qed.



(** C6 on a first entry, with the password generated. *)
Lemma create_generates_19_characters :
  exists pw,
    fs (create (host := machine) "test.com" "alice" "" fresh).2
      !! ["home"; "u"; ".kip"; "test.com"]
    = Some (File ("gpg:" +:+ pw +:+ nl +:+ "alice" +:+ nl))
    /\ String.length pw = 19%nat
    /\ drawn (create (host := machine) "test.com" "alice" "" fresh).2
       = 19%nat.
Proof.
  destruct (create_password_source (host := machine)
              "test.com" "alice" "" fresh ["home"; "u"; ".kip"; "test.com"])
    as (pw & Hst & _ & Hlen & _ & Hdrawn).
  - intros _. split; [reflexivity|]. intros i _. eexists. reflexivity.
  - reflexivity.
  - vm_compute. reflexivity.
  - exists pw. split; [exact Hst|]. split; [exact Hlen|exact Hdrawn].
Defined.

Example create_generated_password :
  let r := create (host := machine) "test.com" "alice" "" fresh in
  fs r.2 !! ["home"; "u"; ".kip"; "test.com"]
  = Some (File ("gpg:dkryFMT07elszGNU18f" +:+ nl +:+ "alice" +:+ nl))
  /\ clipboard r.2 = Some "dkryFMT07elszGNU18f".
Proof. vm_compute. split; reflexivity. Qed.

(** C7 on a piped password. *)
Lemma create_piped_password_nonempty :
  exists pw,
    pw <> ""
    /\ pw = strip (" S3cret" +:+ nl)
    /\ stat (create (host := machine) "test.com" "alice" ""
               (piped (" S3cret" +:+ nl))).2 (home +:+ "test.com")
       = Some (File ("gpg:" +:+ pw +:+ nl +:+ "alice" +:+ nl))
    /\ exists line rest,
         split LF (pw +:+ nl +:+ "alice" +:+ nl) = line :: rest
         /\ line <> "".
Proof.
  apply (stored_password_nonempty (host := machine)
           "test.com" "alice" "" (piped (" S3cret" +:+ nl))
           ["home"; "u"; ".kip"; "test.com"]).
  - intros H. discriminate H.
  - reflexivity.
  - vm_compute. reflexivity.
  - intros p Hp. injection Hp as <-. reflexivity.
Defined.

(** C7 as stated fails: piped whitespace is stored as an empty
    password. *)
Lemma stored_password_can_be_empty :
  ~ (forall (host : Host) name username notes w q,
       spawn_error ENCRYPT_CMD = None ->
       wt_target w (HOME +:+ name) = Some q ->
       exists pw,
         pw <> ""
         /\ fs (create name username notes w).2 !! q
            = Some (File (gpg ENCRYPT_CMD
                            (pw +:+ String LF
                               (username +:+ String LF notes))))).
Proof.
  intros H.
  destruct (H machine "test.com" "alice" "" (piped (" " +:+ nl))
              ["home"; "u"; ".kip"; "test.com"] eq_refl
              ltac:(vm_compute; reflexivity)) as (pw & Hne & Hst).
  assert (Hfs : fs (create (host := machine) "test.com" "alice" ""
                      (piped (" " +:+ nl))).2
                  !! ["home"; "u"; ".kip"; "test.com"]
                = Some (File ("gpg:" +:+ nl +:+ "alice" +:+ nl)))
    by (vm_compute; reflexivity).
  rewrite Hfs in Hst. injection Hst as Hst.
  apply (f_equal String.length) in Hst.
  change (@gpg machine) with toy_gpg in Hst.
  unfold toy_gpg in Hst. simpl in Hst.
  rewrite !length_append in Hst. simpl in Hst.
  destruct pw; [congruence|simpl in Hst; lia].
Qed.

(** C8 as stated fails: the entry [test.com] of [bare] was stored
    without notes, and [show] prints a line for them, an empty one. *)
Lemma empty_notes_are_emitted :
  ~ (forall (host : Host) name is_visible w f enc w1 r,
       resolve name w = ((f, Return enc), w1) ->
       spawn_error DECRYPT_CMD = None ->
       deserialize (gpg DECRYPT_CMD enc) = Return r ->
       show name is_visible w
       = emit is_visible (negb (String.eqb (notes r) "")) r w1).
Proof.
  intros H.
  specialize (H machine "test.com" true bare (home +:+ "test.com")
                ("gpg:S3cret" +:+ nl +:+ "alice" +:+ nl) bare
                (mkAccount "S3cret" "alice" "")).
  assert (Hout : stdout (show (host := machine) "test.com" true bare).2
                 = [bold "alice"; "S3cret"; ""])
    by (vm_compute; reflexivity).
  rewrite H in Hout by (vm_compute; reflexivity).
  vm_compute in Hout. discriminate Hout.
Qed.

(** C8 on the entry [ebay.com], which has notes. *)
Lemma show_ebay_com_prints_notes :
  show (host := machine) "ebay.com" true ebay
  = (Return 0, say [bold "alice"; "S3cret"; "my notes"] ebay).
Proof.
  destruct (notes_emitted_iff_third_line (host := machine)
              "ebay.com" true ebay (home +:+ "ebay.com")
              ("gpg:S3cret" +:+ nl +:+ "alice" +:+ nl +:+ "my notes") ebay
              (mkAccount "S3cret" "alice" "my notes"))
    as (Hshow & _ & _).
  - vm_compute. reflexivity.
  - reflexivity.
  - vm_compute. reflexivity.
  - rewrite Hshow. vm_compute. reflexivity.
Defined.

(** C9 on the machine without [xclip]. *)
Lemma show_without_xclip :
  show (host := headless) "ebay.com" false ebay
  = (Return 0,
     say [bold "alice";
          "xclip -- [Errno 2] No such file or directory";
          "XLIP is propably not installed";
          "my notes"] ebay).
Proof.
  apply (clipboard_unavailable_is_soft (host := headless)
           "ebay.com" ebay (home +:+ "ebay.com")
           ("gpg:S3cret" +:+ nl +:+ "alice" +:+ nl +:+ "my notes") ebay
           (mkAccount "S3cret" "alice" "my notes")).
  - vm_compute. reflexivity.
  - reflexivity.
  - vm_compute. reflexivity.
  - reflexivity.
Defined.

(** C10 on the arguments [a.com me --print]: a visible [show] of
    [a.com], which is not there, and no file written. *)
Lemma main_print_after_username :
  exists name,
    ["kip"; "a.com"; "me"; "--print"] !! 1%nat = Some name
    /\ main (host := machine) (Some ["kip"; "a.com"; "me"; "--print"]) fresh
       = show (host := machine) name true (mkdir_home (host := machine) fresh)
    /\ fs (main (host := machine)
             (Some ["kip"; "a.com"; "me"; "--print"]) fresh).2
       = fs (mkdir_home (host := machine) fresh).
Proof.
  apply (print_last_always_shows (host := machine)
           (Some ["kip"; "a.com"; "me"; "--print"]) fresh).
  - simpl. lia.
  - reflexivity.
Defined.

Example trailing_print_creates_nothing :
  let r := main (host := machine)
             (Some ["kip"; "a.com"; "me"; "--print"]) fresh in
  r.1 = Return 1
  /\ stdout r.2 = ["Did you mean:"; "File not found: /home/u/.kip/a.com"]
  /\ stat r.2 (home +:+ "a.com") = None.
Proof. vm_compute. repeat split; reflexivity. Qed.

(** The guess, the absence and the scenario of the specification *)
Example show_guesses_single_candidate :
  let r := show (host := machine) "co.uk" false ebay in
  r.1 = Return 0
  /\ stdout r.2 = ["Guessing " +:+ bold "ebay.co.uk"; bold "bob"]
  /\ clipboard r.2 = Some "hunter2".
Proof. vm_compute. repeat split; reflexivity. Qed.

Example show_nonexistent :
  let r := show (host := machine) "nonexistent" false ebay in
  r.1 = Return 1
  /\ stdout r.2
     = ["Did you mean:"; "File not found: /home/u/.kip/nonexistent"].
Proof. vm_compute. repeat split; reflexivity. Qed.

Example create_then_show :
  let r := create (host := machine) "test.com" "alice" "my notes"
             (piped "S3cret") in
  let r' := show (host := machine) "test.com" true r.2 in
  r.1 = Return 0
  /\ clipboard r.2 = Some "S3cret"
  /\ stdout r'.2 = (stdout r.2 ++ [bold "alice"; "S3cret"; "my notes"])%list
  /\ stat r.2 (home +:+ "test.com")
     = Some (File (toy_gpg ENCRYPT_CMD
                     ("S3cret" +:+ nl +:+ "alice" +:+ nl +:+ "my notes"))).
Proof. vm_compute. repeat split; reflexivity. Qed.

End OnTheMachine.

(** ** Further properties of [create] and [main] *)

Section MoreCreate.

Context {host : Host}.

Lemma emit_status is_visible has_notes r w :
  (emit is_visible has_notes r w).1 = Return 0.
Proof.
  destruct is_visible.
  - rewrite emit_visible. reflexivity.
  - destruct (spawn_error CLIP_CMD) as [e|] eqn:H.
    + rewrite (emit_no_clipboard _ _ _ _ H). reflexivity.
    + rewrite (emit_clipboard _ _ _ H). reflexivity.
Qed.

Lemma show_status name is_visible w rc :
  (show name is_visible w).1 = Return rc -> rc = 0 \/ rc = 1.
Proof.
  destruct (resolve name w) as [[f [enc|e]] w1] eqn:Hr.
  - destruct (spawn_error DECRYPT_CMD) eqn:Hs.
    + unfold show. rewrite Hr, bind_run, decrypt_run, Hs. discriminate.
    + rewrite (show_opened _ _ _ _ _ _ Hr Hs).
      destruct (deserialize _); [|discriminate].
      rewrite emit_status. intros [= <-]. auto.
  - unfold show. rewrite Hr. destruct (is_IOError e); [|discriminate].
    intros [= <-]. auto.
Qed.

(** The world [create] leaves: the one its password source left, or the
    one [show] leaves after the record was written. *)
Lemma create_world name username notes w :
  exists w0,
    w0 = (password_source w).2
    /\ fs w0 = fs w /\ cwd w0 = cwd w
    /\ ((exists e, create name username notes w = (Raise e, w0))
        \/ exists pw q,
             wt_target w (HOME +:+ name) = Some q
             /\ create name username notes w
                = show name false
                    (written q
                       (pw +:+ String LF (username +:+ String LF notes)) w0)).
Proof.
  destruct (password_source_files w) as [Hfs Hcwd].
  exists (password_source w).2.
  split; [reflexivity|]. split; [exact Hfs|]. split; [exact Hcwd|].
  rewrite create_run.
  destruct (password_source w) as [[pw|e] w0]; simpl in *; [|left; eauto].
  destruct (spawn_error ENCRYPT_CMD); [left; eauto|].
  rewrite (wt_target_ext _ _ _ Hfs Hcwd).
  destruct (wt_target w (HOME +:+ name)) as [q|]; [|left; eauto].
  right. exists pw, q. auto.
Qed.

Lemma create_other_files name username notes w q' :
  wt_target w (HOME +:+ name) <> Some q' ->
  fs (create name username notes w).2 !! q' = fs w !! q'.
Proof.
  intros Hq.
  destruct (create_world name username notes w)
    as (w0 & _ & Hfs & _ & [[e He]|(pw & q & Ht & Hc)]).
  - rewrite He. simpl. rewrite Hfs. reflexivity.
  - rewrite Hc, show_fs. unfold written. simpl.
    rewrite lookup_insert_ne by congruence. rewrite Hfs. reflexivity.
Qed.

Lemma create_keeps_files name username notes w q' :
  is_Some (fs w !! q') ->
  is_Some (fs (create name username notes w).2 !! q').
Proof.
  intros Hp.
  destruct (create_world name username notes w)
    as (w0 & _ & Hfs & _ & [[e He]|(pw & q & Ht & Hc)]).
  - rewrite He. simpl. rewrite Hfs. exact Hp.
  - rewrite Hc, show_fs. unfold written. simpl.
    destruct (decide (q = q')) as [->|Hne].
    + rewrite lookup_insert_eq. eauto.
    + rewrite lookup_insert_ne by exact Hne. rewrite Hfs. exact Hp.
Qed.

Lemma create_status name username notes w rc :
  (create name username notes w).1 = Return rc -> rc = 0 \/ rc = 1.
Proof.
  destruct (create_world name username notes w)
    as (w0 & _ & _ & _ & [[e He]|(pw & q & _ & Hc)]).
  - rewrite He. discriminate.
  - rewrite Hc. apply show_status.
Qed.

Lemma mkdir_home_other w q' :
  mkdir_target w HOME <> Some q' ->
  fs (mkdir_home w) !! q' = fs w !! q'.
Proof.
  intros Hq. unfold mkdir_home.
  destruct (mkdir_target w HOME) as [q|]; [|reflexivity].
  simpl. rewrite lookup_insert_ne by congruence. reflexivity.
Qed.

Lemma mkdir_home_keeps_files w q' :
  is_Some (fs w !! q') -> is_Some (fs (mkdir_home w) !! q').
Proof.
  intros Hp. unfold mkdir_home.
  destruct (mkdir_target w HOME) as [q|]; [|exact Hp].
  simpl. destruct (decide (q = q')) as [->|Hne].
  - rewrite lookup_insert_eq. eauto.
  - rewrite lookup_insert_ne by exact Hne. exact Hp.
Qed.

Lemma getitem_Some_nat {A} (l : list A) (n : nat) x :
  getitem l (Z.of_nat n) = Some x -> l !! n = Some x.
Proof.
  unfold getitem.
  destruct (Z.ltb_spec (Z.of_nat n) 0); [lia|].
  destruct (Z.ltb_spec (Z.of_nat n) 0); [lia|].
  destruct (Z.leb_spec (Z.of_nat (length l)) (Z.of_nat n)); simpl;
    [discriminate|].
  rewrite Nat2Z.id. auto.
Qed.

(** The four ways [main] goes. *)
Lemma main_cases arg w :
  (length (argv_of arg) = 1%nat /\ main arg w = (Return 1, say [USAGE] w))
  \/ (exists e, main arg w = (Raise e, mkdir_home w))
  \/ (exists name is_visible,
        argv_of arg !! 1%nat = Some name
        /\ main arg w = show name is_visible (mkdir_home w))
  \/ (exists name username notes,
        argv_of arg !! 1%nat = Some name
        /\ main arg w = create name username notes (mkdir_home w)).
Proof.
  unfold main. fold (argv_of arg). set (argv := argv_of arg).
  destruct (Z.eqb_spec (len argv) 1) as [E|_].
  { left. split; [unfold len in E; lia|]. py_run. reflexivity. }
  right. rewrite bind_run, mkdir_run, bind_run, index_run.
  destruct (getitem argv (len argv - 1)) as [x|]; [|left; eauto].
  destruct ((len argv =? 2) || String.eqb x "--print").
  - rewrite bind_run, index_run.
    destruct (getitem argv 1) as [name|] eqn:Hn; [|left; eauto].
    right. left. exists name, (String.eqb x "--print").
    split; [|reflexivity].
    apply (getitem_Some_nat argv 1). exact Hn.
  - destruct argv as [|a [|name [|username [|notes [|? ?]]]]]; simpl;
      try (left; eexists; reflexivity).
    + right. right. exists name, username, "". auto.
    + right. right. exists name, username, notes. auto.
Qed.

End MoreCreate.

Section CreateAndMain.

Context {host : Host}.

(** [create] changes the place its path names and no other: every
    other place of the tree is as it was, however [create] ends, and no
    place that held something stops holding something.  The place is the
    one the system finds for [HOME + name], so [./x] and [x] are one
    place, and [../x] is a place outside [HOME]. *)
Theorem create_writes_only_its_entry name username notes w :
  (forall q, wt_target w (HOME +:+ name) <> Some q ->
     fs (create name username notes w).2 !! q = fs w !! q)
  /\ (forall q, is_Some (fs w !! q) ->
     is_Some (fs (create name username notes w).2 !! q)).
Proof.
  split; intros q Hq.
  - apply create_other_files. exact Hq.
  - apply create_keeps_files. exact Hq.
Qed.

(** With piped input [create] reads it to the end and draws nothing from
    the entropy source; on a terminal it leaves standard input alone and
    draws at most 19 times, and exactly 19 times when [range(19)] finds
    room and the source can be read: however it ends. *)
Theorem create_uses_one_source name username notes w :
  let w' := (create name username notes w).2 in
  match stdin w with
  | Some _ => stdin w' = Some "" /\ drawn w' = drawn w
  | None =>
      stdin w' = None
      /\ (drawn w <= drawn w' <= drawn w + 19)%nat
      /\ (range_error PW_LEN = None ->
          draws_available w (drawn w) 19 ->
          drawn w' = (drawn w + 19)%nat)
  end.
Proof.
  intros w'.
  destruct (create_world name username notes w)
    as (w0 & Hw0 & _ & _ & Hc).
  assert (Hq : stdin w' = stdin w0 /\ drawn w' = drawn w0).
  { unfold w'. destruct Hc as [[e He]|(pw & q & _ & Hc)].
    - rewrite He. auto.
    - rewrite Hc.
      destruct (show_quiet name false
                  (written q
                     (pw +:+ String LF (username +:+ String LF notes)) w0))
        as (_ & _ & Hi & _ & Hd).
      rewrite Hi, Hd. auto. }
  destruct Hq as [-> ->]. subst w0.
  pose proof (password_source_world w) as Hw.
  destruct (stdin w) as [piped|] eqn:Hin.
  - rewrite Hw. auto.
  - destruct Hw as (k & Hk & Hb). rewrite Hk. simpl.
    split; [exact Hin|]. split; [exact Hb|].
    intros Hr Hav.
    destruct (password_source_returns w) as (pw & w0 & Hpw & _ & _ & Hsrc).
    { intros _. auto. }
    rewrite Hin in Hsrc. destruct Hsrc as (Hw0 & _).
    rewrite Hpw in Hk. simpl in Hk. rewrite Hw0 in Hk.
    apply (f_equal drawn) in Hk. simpl in Hk. lia.
Qed.

(** The whole of [create], when gpg decrypts what it encrypts, the
    programs are there, the password comes and the file can be written:
    for a user name and a password of one line it writes the record,
    prints the user name and the notes, leaves the new password on the
    clipboard and returns 0. *)
Theorem create_delivers_new_password name username notes w q :
  (forall plain, gpg DECRYPT_CMD (gpg ENCRYPT_CMD plain) = plain) ->
  spawn_error ENCRYPT_CMD = None ->
  spawn_error DECRYPT_CMD = None ->
  spawn_error CLIP_CMD = None ->
  (stdin w = None ->
     range_error PW_LEN = None /\ draws_available w (drawn w) 19) ->
  wt_target w (HOME +:+ name) = Some q ->
  contains LF username = false ->
  (forall piped, stdin w = Some piped -> contains LF (strip piped) = false) ->
  exists pw w0,
    password_source w = (Return pw, w0)
    /\ create name username notes w
       = (Return 0,
          say [bold username; notes]
            (set_clipboard (Some pw)
               (written q (pw +:+ String LF (username +:+ String LF notes))
                  w0))).
Proof.
  intros Hgpg He Hd Hc Hgen Hq Hu Hin.
  destruct (create_stores name username notes w q Hgen He Hq)
    as (pw & w0 & Hpw & Hcr & _ & Hsrc).
  destruct (password_source_files w) as [Hfs Hcwd].
  rewrite Hpw in Hfs, Hcwd. simpl in Hfs, Hcwd.
  exists pw, w0. split; [exact Hpw|].
  set (r := mkAccount pw username notes).
  assert (Hp : contains LF pw = false).
  { destruct (stdin w) as [piped|].
    - subst pw. apply Hin. reflexivity.
    - destruct Hsrc as (_ & _ & Hall & _).
      apply letters_and_digits_no_newline.
      revert Hall. apply all_chars_weaken. intros c Hin'.
      apply (contains_all_chars _ alphabet c); [reflexivity|exact Hin']. }
  rewrite Hcr.
  change (pw +:+ String LF (username +:+ String LF notes))
    with (serialize r).
  rewrite (show_opened name false _ (HOME +:+ name)
             (gpg ENCRYPT_CMD (serialize r)) (written q (serialize r) w0)).
  - rewrite Hgpg, (deserialize_serialize r Hp Hu).
    rewrite (emit_clipboard _ _ _ Hc).
    rewrite (serialize_parts r Hp Hu).
    destruct (split LF _) as [|x xs] eqn:Hs;
      [exfalso; exact (split_not_nil _ _ Hs)|].
    unfold len. simpl length.
    destruct (Z.ltb_spec 2 (Z.of_nat (S (S (S (length xs))))));
      [reflexivity|lia].
  - apply resolve_exact. unfold written. apply stat_after_write.
    rewrite (wt_target_ext _ _ _ Hfs Hcwd). exact Hq.
  - exact Hd.
Qed.

(** Called with the program name alone, [main] prints the usage and
    returns 1; it does not make [HOME] nor touch anything else. *)
Theorem main_prints_usage arg w :
  length (argv_of arg) = 1%nat ->
  main arg w = (Return 1, say [USAGE] w).
Proof.
  intros H. unfold main. fold (argv_of arg).
  destruct (Z.eqb_spec (len (argv_of arg)) 1) as [_|E].
  - py_run. reflexivity.
  - unfold len in E. lia.
Qed.

(** With one argument [main] shows the entry of that name, the password
    going to the clipboard; unless the argument is [--print] itself: then
    the entry named [--print] is shown, with the password visible. *)
Theorem main_single_argument arg w prog name :
  argv_of arg = [prog; name] ->
  main arg w = show name (String.eqb name "--print") (mkdir_home w).
Proof.
  intros H. rewrite (main_run arg w name) by (rewrite H; (simpl; lia) || reflexivity).
  rewrite H. reflexivity.
Qed.

(** With more than three arguments, the last not being [--print], the
    call of [create] raises [TypeError]: [main] ends with it, having at
    most made [HOME]. *)
Theorem main_too_many_arguments arg w :
  (5 <= length (argv_of arg))%nat ->
  last (argv_of arg) <> Some "--print" ->
  main arg w = (Raise TypeError, mkdir_home w).
Proof.
  intros Hlen Hlast.
  destruct (last (argv_of arg)) as [x|] eqn:Hx.
  - rewrite (main_run arg w x) by (lia || exact Hx).
    destruct (Z.eqb_spec (len (argv_of arg)) 2) as [E|_];
      [unfold len in E; lia|].
    destruct (String.eqb_spec x "--print") as [->|_]; [congruence|].
    destruct (argv_of arg) as [|a [|b [|c [|d [|e rest]]]]];
      simpl in Hlen; try lia. reflexivity.
  - apply last_None in Hx. rewrite Hx in Hlen. simpl in Hlen. lia.
Qed.

(** Whatever its arguments, [main] changes no place of the tree but the
    one [os.mkdir(HOME)] makes and the one the path of the entry named by
    its first argument names. *)
Theorem main_touches_only_its_entry arg w q :
  mkdir_target w HOME <> Some q ->
  (forall name, argv_of arg !! 1%nat = Some name ->
     wt_target (mkdir_home w) (HOME +:+ name) <> Some q) ->
  fs (main arg w).2 !! q = fs w !! q.
Proof.
  intros Hhome Hname.
  destruct (main_cases arg w)
    as [[_ Hm]|[[e Hm]|[(n & v & Hn & Hm)|(n & u & no & Hn & Hm)]]];
    rewrite Hm.
  - reflexivity.
  - apply mkdir_home_other, Hhome.
  - rewrite show_fs. apply mkdir_home_other, Hhome.
  - rewrite create_other_files by (apply Hname, Hn).
    apply mkdir_home_other, Hhome.
Qed.

(** [main] never removes anything: a path that named a file or a
    directory before still names one after. *)
Theorem main_never_removes arg w p :
  is_Some (fs w !! p) -> is_Some (fs (main arg w).2 !! p).
Proof.
  intros Hp.
  destruct (main_cases arg w)
    as [[_ Hm]|[[e Hm]|[(n & v & Hn & Hm)|(n & u & no & Hn & Hm)]]];
    rewrite Hm.
  - exact Hp.
  - apply mkdir_home_keeps_files, Hp.
  - rewrite show_fs. apply mkdir_home_keeps_files, Hp.
  - apply create_keeps_files, mkdir_home_keeps_files, Hp.
Qed.

(** When [main] returns, it returns 0 or 1. *)
Theorem main_status arg w rc :
  (main arg w).1 = Return rc -> rc = 0 \/ rc = 1.
Proof.
  destruct (main_cases arg w)
    as [[_ Hm]|[[e Hm]|[(n & v & Hn & Hm)|(n & u & no & Hn & Hm)]]];
    rewrite Hm.
  - intros [= <-]. auto.
  - discriminate.
  - apply show_status.
  - apply create_status.
Qed.

End CreateAndMain.

(** ** The further properties on the concrete machine *)

Section MoreOnTheMachine.

Import Demo.

Lemma substring_whole s : substring 0 (String.length s) s = s.
Proof. induction s as [|c s IH]; simpl; [reflexivity|]. rewrite IH. reflexivity. Qed.

Lemma toy_gpg_decrypts plain :
  toy_gpg DECRYPT_CMD (toy_gpg ENCRYPT_CMD plain) = plain.
Proof.
  change (toy_gpg DECRYPT_CMD (toy_gpg ENCRYPT_CMD plain))
    with (substring 0 (String.length plain - 0) plain).
  rewrite Nat.sub_0_r. apply substring_whole.
Qed.

Lemma show_ebay_com_both_ways :
  show (host := machine) "ebay.com" true ebay
  = (Return 0, say [bold "alice"; "S3cret"; "my notes"] ebay)
  /\ show (host := machine) "ebay.com" false ebay
     = (Return 0,
        say [bold "alice"; "my notes"] (set_clipboard (Some "S3cret") ebay)).
Proof.
  destruct (show_delivers (host := machine)
              "ebay.com" ebay (home +:+ "ebay.com")
              ("gpg:S3cret" +:+ nl +:+ "alice" +:+ nl +:+ "my notes") ebay
              (mkAccount "S3cret" "alice" "my notes"))
    as [Hv Hc].
  - vm_compute. reflexivity.
  - reflexivity.
  - vm_compute. reflexivity.
  - split; [exact Hv|]. apply Hc. reflexivity.
Defined.

Lemma show_empty_name :
  show (host := machine) "" false ebay
  = (Return 1, say ["File not found: " +:+ home] ebay).
Proof.
  apply (show_directory_not_found (host := machine) "" false ebay).
  vm_compute. reflexivity.
Defined.


Lemma show_on_machine_without_gpg :
  show (host := bare_machine) "ebay.com" false ebay
  = (Raise (OSError "[Errno 2] No such file or directory"), ebay).
Proof.
  apply (show_without_gpg (host := bare_machine)
           "ebay.com" false ebay (home +:+ "ebay.com")
           ("gpg:S3cret" +:+ nl +:+ "alice" +:+ nl +:+ "my notes")).
  - vm_compute. reflexivity.
  - reflexivity.
Defined.

Lemma create_test_com_delivers :
  exists pw w0,
    password_source (host := machine) (piped (" S3cret" +:+ nl))
    = (Return pw, w0)
    /\ create (host := machine) "test.com" "alice" "my notes"
         (piped (" S3cret" +:+ nl))
       = (Return 0,
          say [bold "alice"; "my notes"]
            (set_clipboard (Some pw)
               (written (host := machine) ["home"; "u"; ".kip"; "test.com"]
                  (pw +:+ nl +:+ "alice" +:+ nl +:+ "my notes") w0))).
Proof.
  apply (create_delivers_new_password (host := machine)
           "test.com" "alice" "my notes" (piped (" S3cret" +:+ nl))
           ["home"; "u"; ".kip"; "test.com"]).
  - exact toy_gpg_decrypts.
  - reflexivity.
  - reflexivity.
  - reflexivity.
  - intros H. discriminate H.
  - vm_compute. reflexivity.
  - reflexivity.
  - intros p Hp. injection Hp as <-. reflexivity.
Defined.

(** A name through a directory that is not there: nothing is written,
    [create] ends with [IOError]. *)
Example create_in_missing_directory :
  let r := create (host := machine) "sub/a.com" "me" "note" (piped "pw") in
  r.1 = Raise IOError
  /\ stdout r.2 = []
  /\ fs r.2 = fs (piped "pw").
Proof. vm_compute. repeat split; reflexivity. Qed.

(** The first run makes [HOME], trailing slash and all, and the entry. *)
Example main_first_run :
  let r := main (host := machine) (Some ["kip"; "a.com"; "me"])
             (first_run (Some "pw")) in
  r.1 = Return 0
  /\ stat r.2 "/home/u/.kip" = Some Dir
  /\ stat r.2 "/home/u/.kip/a.com"
     = Some (File ("gpg:pw" +:+ nl +:+ "me" +:+ nl))
  /\ clipboard r.2 = Some "pw".
Proof. vm_compute. repeat split; reflexivity. Qed.

(** A name that leaves [HOME] writes where it leads. *)
Example create_outside_home :
  let r := main (host := machine) (Some ["kip"; "../.bashrc"; "me"])
             (piped "pw") in
  fs r.2 !! ["home"; "u"; ".bashrc"]
  = Some (File ("gpg:pw" +:+ nl +:+ "me" +:+ nl)).
Proof. vm_compute. reflexivity. Qed.

(** A name with [./] in front is the same entry. *)
Example create_dot_slash_overwrites :
  let r := create (host := machine) "./ebay.com" "me" ""
             (world [("ebay.com", "old")] (Some "pw")) in
  stat r.2 (home +:+ "ebay.com")
  = Some (File ("gpg:pw" +:+ nl +:+ "me" +:+ nl)).
Proof. vm_compute. reflexivity. Qed.

Lemma main_without_arguments :
  main (host := machine) None fresh
  = (Return 1, say [USAGE (host := machine)] fresh).
Proof.
  apply (main_prints_usage (host := machine) None fresh). reflexivity.
Defined.

Lemma main_print_alone :
  main (host := machine) (Some ["kip"; "--print"]) ebay
  = show (host := machine) "--print" true (mkdir_home (host := machine) ebay).
Proof.
  apply (main_single_argument (host := machine)
           (Some ["kip"; "--print"]) ebay "kip" "--print").
  reflexivity.
Defined.

Lemma main_four_arguments :
  main (host := machine) (Some ["kip"; "a.com"; "me"; "some"; "notes"]) fresh
  = (Raise TypeError, mkdir_home (host := machine) fresh).
Proof.
  apply (main_too_many_arguments (host := machine)
           (Some ["kip"; "a.com"; "me"; "some"; "notes"]) fresh).
  - simpl. lia.
  - simpl. discriminate.
Defined.

Lemma main_create_leaves_ebay_com :
  fs (main (host := machine) (Some ["kip"; "a.com"; "me"]) ebay).2
    !! ["home"; "u"; ".kip"; "ebay.com"]
  = fs ebay !! ["home"; "u"; ".kip"; "ebay.com"].
Proof.
  apply (main_touches_only_its_entry (host := machine)
           (Some ["kip"; "a.com"; "me"]) ebay
           ["home"; "u"; ".kip"; "ebay.com"]).
  - vm_compute. discriminate.
  - intros name Hn. injection Hn as <-. vm_compute. discriminate.
Defined.

Lemma main_overwrite_keeps_entry :
  is_Some (fs (main (host := machine) (Some ["kip"; "ebay.com"; "me"]) ebay).2
             !! ["home"; "u"; ".kip"; "ebay.com"]).
Proof.
  apply (main_never_removes (host := machine)
           (Some ["kip"; "ebay.com"; "me"]) ebay
           ["home"; "u"; ".kip"; "ebay.com"]).
  vm_compute. eauto.
Defined.

Lemma main_status_of_missing_entry :
  (main (host := machine) (Some ["kip"; "nonexistent"]) ebay).1 = Return 1
  /\ (1 = 0 \/ 1 = 1).
Proof.
  assert (H : (main (host := machine) (Some ["kip"; "nonexistent"]) ebay).1
              = Return 1) by (vm_compute; reflexivity).
  split; [exact H|].
  exact (main_status (host := machine) (Some ["kip"; "nonexistent"]) ebay 1 H).
Defined.

End MoreOnTheMachine.
